(** * crypto_bot.py: the in-memory user state, the alert evaluator and the
      deposit / payment handlers

    A shallow embedding of the handlers of [crypto_bot.py] that own state
    ([user_alerts], [user_portfolio], [user_favorites], [user_balance]),
    of the periodic job [check_alerts] and of the three payment steps
    ([deposit], [pre_checkout_handler], [successful_payment_handler]).

    Conventions.
    - A Python [float] is an IEEE 754 binary64 value: [spec_float] with the
      operations of [SpecFloat] at precision 53 and maximal exponent 1024
      (round to nearest, ties to even).  A JSON integer read from the price
      API is represented by the float of the same value (exact below 2^53).
    - A Python [dict] keyed by user id or by asset id is a [gmap].
    - A handler is a function from its inputs and the store to a reply and
      the new store.  The outside world (price API, Telegram sends, the
      clock) is an explicit input; an [await] that raises is a [false]
      outcome.
    - Strings are byte strings; [lower] and [isdigit] are modelled on ASCII. *)

From Stdlib Require Import ZArith Bool Ascii String List Lia SpecFloat.
From stdpp Require Import base option list gmap strings pretty.

Local Open Scope Z_scope.

(** ** Python floats *)

Module PyFloat.

Definition prec : Z := 53.
Definition emax : Z := 1024.

Definition float : Type := spec_float.

Definition add : float -> float -> float := SFadd prec emax.
Definition mul : float -> float -> float := SFmul prec emax.
Definition div : float -> float -> float := SFdiv prec emax.

(** The comparison operators of Python on floats; every comparison with a
    NaN is [False], and [0.0 == -0.0]. *)
Definition eq (x y : float) : bool := SFeqb x y.
Definition lt (x y : float) : bool := SFltb x y.
Definition le (x y : float) : bool := SFleb x y.
Definition gt (x y : float) : bool :=
  match SFcompare x y with Some Gt => true | _ => false end.
Definition ge (x y : float) : bool :=
  match SFcompare x y with Some (Gt | Eq) => true | _ => false end.

Definition is_nan (x : float) : bool :=
  match x with S754_nan => true | _ => false end.

Inductive exn : Set := ValueError | OverflowError.

(** [float(n)] for a Python [int], as in [n / 100.0]: correctly rounded,
    [OverflowError] when the result does not fit. *)
Definition of_int (n : Z) : exn + float :=
  match binary_normalize prec emax n 0 false with
  | S754_infinity _ => inl OverflowError
  | f => inr f
  end.

(** [int(x)]: truncation towards zero; [int(nan)] raises [ValueError],
    [int(inf)] raises [OverflowError]. *)
Definition to_int (x : float) : exn + Z :=
  match x with
  | S754_zero _ => inr 0
  | S754_finite s m e => inr (cond_Zopp s (Z.shiftl (Zpos m) e))
  | S754_infinity _ => inl OverflowError
  | S754_nan => inl ValueError
  end.

(** The float of a small integer literal of the source ([0], [100], [1000],
    [10000000], [100.0]); these conversions are exact. *)
Definition lit (n : Z) : float := binary_normalize prec emax n 0 false.

Definition pow10 (k : nat) : float :=
  S754_finite false (Z.to_pos (10 ^ Z.of_nat k)) 0.

(** The float nearest to [n / 10^k], that is the value [float()] gives to the
    decimal numeral with the digits of [n] and [k] digits after the point.
    Both operands are exact integers, so the one rounding of the division is
    the rounding of the numeral. *)
Definition dec (n : Z) (k : nat) : float :=
  match n with
  | Z0 => S754_zero false
  | Zpos p => SFdiv prec emax (S754_finite false p 0) (pow10 k)
  | Zneg p => SFdiv prec emax (S754_finite true p 0) (pow10 k)
  end.

End PyFloat.

Abbreviation float := PyFloat.float.

(** ** Python strings (ASCII) *)

Module PyStr.

Definition lower_ascii (c : ascii) : ascii :=
  let n := N_of_ascii c in
  if ((65 <=? n) && (n <=? 90))%N then ascii_of_N (n + 32) else c.

(** [s.lower()] *)
Fixpoint lower (s : string) : string :=
  match s with
  | EmptyString => EmptyString
  | String c s' => String (lower_ascii c) (lower s')
  end.

Definition is_digit (c : ascii) : bool :=
  let n := N_of_ascii c in ((48 <=? n) && (n <=? 57))%N.

Fixpoint all_digits (s : string) : bool :=
  match s with
  | EmptyString => true
  | String c s' => is_digit c && all_digits s'
  end.

(** [s.isdigit()]: at least one character, all of them digits. *)
Definition isdigit (s : string) : bool :=
  match s with
  | EmptyString => false
  | _ => all_digits s
  end.

(** [s.replace('.', '')] *)
Fixpoint remove_dots (s : string) : string :=
  match s with
  | EmptyString => EmptyString
  | String c s' =>
      if Ascii.eqb c "."%char then remove_dots s' else String c (remove_dots s')
  end.

(** [s.startswith(p)] *)
Definition startswith (s p : string) : bool := String.prefix p s.

(** Value of a string of digits read in base ten, most significant first. *)
Fixpoint digits_value (acc : Z) (s : string) : Z :=
  match s with
  | EmptyString => acc
  | String c s' => digits_value (10 * acc + (Z.of_N (N_of_ascii c) - 48)) s'
  end.

Fixpoint split_dot (s : string) : string * option string :=
  match s with
  | EmptyString => (EmptyString, None)
  | String c s' =>
      if Ascii.eqb c "."%char then (EmptyString, Some s')
      else let '(i, f) := split_dot s' in (String c i, f)
  end.

(** [float(s)] on plain decimal numerals: an optional minus sign, digits,
    and at most one point with digits on at least one side.  Python's
    [float] accepts more (exponents, [inf], [nan], blanks, underscores);
    this function is the instance of [float] used to build concrete inputs,
    while the handlers below are stated for an arbitrary [py_float]. *)
Definition decimal_float (s : string) : option float :=
  let '(neg, body) :=
    match s with
    | String "-"%char r => (true, r)
    | _ => (false, s)
    end in
  let '(i, f) := split_dot body in
  let f := default EmptyString f in
  if all_digits i && all_digits f && negb (String.eqb (i ++ f) EmptyString) then
    let x := PyFloat.dec (digits_value 0 (i ++ f)) (String.length f) in
    Some (if neg then SFopp x else x)
  else None.

End PyStr.

(** ** Data model *)

(** An element of [user_alerts[user_id]]:
    [{'crypto_id': str, 'target_price': float, 'direction': str}]. *)
Record alert : Type := Alert {
  crypto_id : string;
  target_price : float;
  direction : string
}.

(** Equality of two alert dictionaries in Python: field by field with [==]. *)
Definition alert_eqb (a b : alert) : bool :=
  String.eqb (crypto_id a) (crypto_id b)
  && PyFloat.eq (target_price a) (target_price b)
  && String.eqb (direction a) (direction b).

(** One entry of the price API's answer.  The modelled code reads only the
    field ['usd'], which the request asks for; an entry is taken to carry a
    number there (without it [price_data[crypto_id]['usd']] would raise
    [KeyError] and end the handler or the run). *)
Record quote : Type := Quote { usd : float }.

(** The four dictionaries of the module. *)
Record store : Type := Store {
  user_alerts : gmap Z (list alert);
  user_portfolio : gmap Z (gmap string float);
  user_favorites : gmap Z (list string);
  user_balance : gmap Z float
}.

Definition empty_store : store := Store ∅ ∅ ∅ ∅.

Definition with_alerts (st : store) (m : gmap Z (list alert)) : store :=
  Store m (user_portfolio st) (user_favorites st) (user_balance st).
Definition with_portfolio (st : store) (m : gmap Z (gmap string float)) : store :=
  Store (user_alerts st) m (user_favorites st) (user_balance st).
Definition with_favorites (st : store) (m : gmap Z (list string)) : store :=
  Store (user_alerts st) (user_portfolio st) m (user_balance st).
Definition with_balance (st : store) (m : gmap Z float) : store :=
  Store (user_alerts st) (user_portfolio st) (user_favorites st) m.

(** ** Asset names *)

Definition CRYPTO_IDS : list (string * string) :=
  [ ("bitcoin", "btc"); ("ethereum", "eth"); ("binancecoin", "bnb");
    ("solana", "sol"); ("cardano", "ada"); ("ripple", "xrp");
    ("polkadot", "dot"); ("dogecoin", "doge"); ("tether", "usdt");
    ("usd-coin", "usdc") ]%string.

Fixpoint find_in_table (crypto_input : string) (table : list (string * string))
  : option string :=
  match table with
  | [] => None
  | (cid, code) :: rest =>
      if String.eqb crypto_input cid || String.eqb crypto_input (PyStr.lower code)
      then Some cid
      else find_in_table crypto_input rest
  end.

Definition find_crypto_id (crypto_input : string) : string :=
  let crypto_input := PyStr.lower crypto_input in
  default crypto_input (find_in_table crypto_input CRYPTO_IDS).

(** ** The price API *)

(** The value of [get_crypto_price(crypto_id)]: the decoded answer, or [None]
    after any error. *)
Definition price_data : Type := option (gmap string quote).

(** [price_data and crypto_id in price_data]: [None] and the empty
    dictionary are false. *)
Definition has_price (pd : price_data) (cid : string) : bool :=
  match pd with
  | None => false
  | Some m => negb (bool_decide (m = ∅)) && bool_decide (is_Some (m !! cid))
  end.

(** [price_data[crypto_id]['usd']], when [has_price] holds. *)
Definition usd_price (pd : price_data) (cid : string) : option float :=
  if has_price pd cid then usd <$> (pd ≫= (.!! cid)) else None.

(** ** The alert evaluator, [check_alerts] *)

(** What the job sees of the outside world during one run: the answer of the
    [n]-th call of [get_crypto_price], and whether the [n]-th
    [context.bot.send_message] returns ([true]) or raises ([false]). *)
Record world : Type := World {
  get_crypto_price : nat -> string -> price_data;
  send_message : nat -> Z -> bool
}.

(** What one run does to the outside world, in order. *)
Inductive event : Type :=
  | EvQuery (cid : string)
  | EvSend (chat_id : Z) (a : alert) (delivered : bool).

(** The condition under which [triggered] is set in [check_alerts]. *)
Definition triggered (direction : string) (current_price target_price : float) : bool :=
  if String.eqb direction "above" && PyFloat.ge current_price target_price then true
  else if String.eqb direction "below" && PyFloat.le current_price target_price then true
  else false.

(** [alerts.remove(alert)]: drops the first element equal to [alert]; when
    there is none Python raises [ValueError], which the surrounding [try]
    catches, and the list is unchanged.  Python tests identity before [==];
    the two can differ only for an alert whose target is a NaN, and such an
    alert is never triggered, hence never removed here. *)
Fixpoint list_remove (a : alert) (l : list alert) : list alert :=
  match l with
  | [] => []
  | e :: l' => if alert_eqb e a then l' else e :: list_remove a l'
  end.

(** State of the loop over one user's alerts: the list object [alerts], the
    numbers of API calls and of sends made so far, and the events so far. *)
Record loop_state : Type := LoopState {
  live : list alert;
  queries : nat;
  sends : nat;
  log : list event
}.

(** Body of the inner loop, for one [alert] of the copy [alerts[:]]. *)
Definition check_alert (w : world) (user_id : Z) (a : alert) (s : loop_state)
  : loop_state :=
  let pd := get_crypto_price w (queries s) (crypto_id a) in
  let s1 := LoopState (live s) (S (queries s)) (sends s) (log s ++ [EvQuery (crypto_id a)]) in
  match usd_price pd (crypto_id a) with
  | None => s1
  | Some current_price =>
      if triggered (direction a) current_price (target_price a) then
        let ok := send_message w (sends s1) user_id in
        LoopState (if ok then list_remove a (live s1) else live s1)
                  (queries s1) (S (sends s1))
                  (log s1 ++ [EvSend user_id a ok])
      else s1
  end.

(** [for alert in alerts[:]: ...] *)
Fixpoint check_user_alerts (w : world) (user_id : Z) (snapshot : list alert)
  (s : loop_state) : loop_state :=
  match snapshot with
  | [] => s
  | a :: rest => check_user_alerts w user_id rest (check_alert w user_id a s)
  end.

(** State of the outer loop: the dictionary [user_alerts] with the counters
    and the events. *)
Record tick_state : Type := TickState {
  t_alerts : gmap Z (list alert);
  t_queries : nat;
  t_sends : nat;
  t_log : list event
}.

(** One iteration of [for user_id, alerts in user_alerts.items()]; the list
    is changed in place, so the dictionary sees the result under the same
    key. *)
Definition check_user (w : world) (t : tick_state) (entry : Z * list alert)
  : tick_state :=
  let '(user_id, alerts) := entry in
  let s := check_user_alerts w user_id alerts
             (LoopState alerts (t_queries t) (t_sends t) (t_log t)) in
  TickState (<[user_id := live s]> (t_alerts t)) (queries s) (sends s) (log s).

Fixpoint check_entries (w : world) (entries : list (Z * list alert))
  (t : tick_state) : tick_state :=
  match entries with
  | [] => t
  | entry :: rest => check_entries w rest (check_user w t entry)
  end.

(** One run of the job: the new store and what happened.  The users are
    visited in the order of [map_to_list]; Python visits them in the order in
    which their keys were inserted.  The order only decides which answer of
    the world goes to which call, and the world is arbitrary below. *)
Definition check_alerts (w : world) (st : store) : store * list event :=
  let t := check_entries w (map_to_list (user_alerts st))
             (TickState (user_alerts st) 0 0 []) in
  (with_alerts st (t_alerts t), t_log t).

(** The asset ids asked from the price API, in order. *)
Definition queried (l : list event) : list string :=
  flat_map (fun e => match e with EvQuery cid => [cid] | _ => [] end) l.

(** [l.count(a)] *)
Definition occ (a : alert) (l : list alert) : nat :=
  length (List.filter (fun e => alert_eqb e a) l).

(** Number of sends to [user_id] about an alert equal to [a] with outcome
    [ok]. *)
Definition is_send (user_id : Z) (a : alert) (ok : bool) (e : event) : bool :=
  match e with
  | EvSend u a' ok' => Z.eqb u user_id && alert_eqb a' a && Bool.eqb ok' ok
  | EvQuery _ => false
  end.

Definition sent (user_id : Z) (a : alert) (ok : bool) (l : list event) : nat :=
  length (List.filter (is_send user_id a ok) l).

(** ** Command handlers *)

(** [if k not in d: d[k] = v] *)
Definition ensure_key {V : Type} (k : Z) (v : V) (d : gmap Z V) : gmap Z V :=
  match d !! k with
  | Some _ => d
  | None => <[k := v]> d
  end.

Section Handlers.

(** [float(s)] on an argument of a command; [None] is [ValueError]. *)
Variable py_float : string -> option float.

(** The answer of [get_crypto_price] when the handler calls it. *)
Variable api : string -> price_data.

(** *** /add *)

Inductive portfolio_reply : Set :=
  | PortfolioUsage | PortfolioBadAmount | PortfolioNotFound | PortfolioAdded.

Definition add_to_portfolio (user_id : Z) (args : list string) (st : store)
  : portfolio_reply * store :=
  match args with
  | arg0 :: arg1 :: _ =>
      let crypto_input := PyStr.lower arg0 in
      match py_float arg1 with
      | None => (PortfolioBadAmount, st)
      | Some amount =>
          let cid := find_crypto_id crypto_input in
          if negb (has_price (api cid) cid) then (PortfolioNotFound, st)
          else
            let portfolio := ensure_key user_id ∅ (user_portfolio st) in
            let holdings := default ∅ (portfolio !! user_id) in
            let holdings' :=
              match holdings !! cid with
              | Some q => <[cid := PyFloat.add q amount]> holdings
              | None => <[cid := amount]> holdings
              end in
            (PortfolioAdded,
             with_portfolio st (<[user_id := holdings']> portfolio))
      end
  | _ => (PortfolioUsage, st)
  end.

(** *** /fav *)

Inductive favorite_reply : Set :=
  | FavUsage | FavNotFound | FavAdded | FavAlreadyPresent.

(** [x in l] for a list of strings. *)
Definition str_in (x : string) (l : list string) : bool :=
  existsb (String.eqb x) l.

Definition add_favorite (user_id : Z) (args : list string) (st : store)
  : favorite_reply * store :=
  match args with
  | [] => (FavUsage, st)
  | arg0 :: _ =>
      let crypto_input := PyStr.lower arg0 in
      let cid := find_crypto_id crypto_input in
      if negb (has_price (api cid) cid) then (FavNotFound, st)
      else
        let favorites := ensure_key user_id [] (user_favorites st) in
        let favs := default [] (favorites !! user_id) in
        if negb (str_in cid favs) then
          (FavAdded, with_favorites st (<[user_id := favs ++ [cid]]> favorites))
        else
          (FavAlreadyPresent, with_favorites st favorites)
  end.

(** *** /alert *)

Inductive alert_reply : Type :=
  | AlertUsage | AlertBadPrice | AlertBadDirection | AlertNotFound
  | AlertCreated (current_price : float).

Definition create_alert (user_id : Z) (args : list string) (st : store)
  : alert_reply * store :=
  match args with
  | arg0 :: arg1 :: arg2 :: _ =>
      let crypto_input := PyStr.lower arg0 in
      match py_float arg1 with
      | None => (AlertBadPrice, st)
      | Some target =>
          let dir := PyStr.lower arg2 in
          if negb (String.eqb dir "above" || String.eqb dir "below")
          then (AlertBadDirection, st)
          else
            let cid := find_crypto_id crypto_input in
            match usd_price (api cid) cid with
            | None => (AlertNotFound, st)
            | Some current_price =>
                let all_alerts := ensure_key user_id [] (user_alerts st) in
                let alerts := default [] (all_alerts !! user_id) in
                (AlertCreated current_price,
                 with_alerts st
                   (<[user_id := alerts ++ [Alert cid target dir]]> all_alerts))
            end
      end
  | _ => (AlertUsage, st)
  end.

(** *** /deposit *)

Inductive deposit_reply : Set :=
  | DepositUnavailable
  | DepositUsage
  | DepositNotPositive
  | DepositBelowMinimum
  | DepositAboveMaximum
  | DepositBadFormat
  | DepositError
  | DepositInvoice (payload : string) (amount_in_tiyin : Z).

(** The replies that refuse the amount itself. *)
Definition is_invalid_amount (r : deposit_reply) : bool :=
  match r with
  | DepositNotPositive | DepositBelowMinimum | DepositAboveMaximum => true
  | _ => false
  end.

(** [if not CLICK_PROVIDER_TOKEN] *)
Definition token_missing (token : option string) : bool :=
  match token with
  | None => true
  | Some t => String.eqb t EmptyString
  end.

(** [f"deposit_{user_id}_{int(datetime.now().timestamp())}"] *)
Definition invoice_payload (user_id now : Z) : string :=
  ("deposit_" ++ pretty user_id ++ "_" ++ pretty now)%string.

(** [int(amount * 100)] *)
Definition amount_in_tiyin (amount : float) : PyFloat.exn + Z :=
  PyFloat.to_int (PyFloat.mul amount (PyFloat.lit 100)).

(** The end of [deposit], once the amount has passed the three checks: the
    payload, the conversion and [send_invoice]. [ValueError] has its own
    [except] clause, every other exception falls in the last one. *)
Definition issue_invoice (now : Z) (invoice_ok : bool) (user_id : Z)
  (amount : float) : deposit_reply :=
  match amount_in_tiyin amount with
  | inl PyFloat.ValueError => DepositBadFormat
  | inl PyFloat.OverflowError => DepositError
  | inr tiyin =>
      if invoice_ok
      then DepositInvoice (invoice_payload user_id now) tiyin
      else DepositError
  end.

(** [token] is [CLICK_PROVIDER_TOKEN], [now] the clock read as whole seconds,
    [invoice_ok] whether [send_invoice] returns. The handler changes no
    dictionary. *)
Definition deposit (token : option string) (now : Z) (invoice_ok : bool)
  (user_id : Z) (args : list string) : deposit_reply :=
  if token_missing token then DepositUnavailable
  else
    match args with
    | [] => DepositUsage
    | arg0 :: _ =>
        if negb (PyStr.isdigit (PyStr.remove_dots arg0)) then DepositUsage
        else
          match py_float arg0 with
          | None => DepositBadFormat
          | Some amount =>
              if PyFloat.le amount (PyFloat.lit 0) then DepositNotPositive
              else if PyFloat.lt amount (PyFloat.lit 1000) then DepositBelowMinimum
              else if PyFloat.gt amount (PyFloat.lit 10000000) then DepositAboveMaximum
              else issue_invoice now invoice_ok user_id amount
          end
    end.

End Handlers.

(** *** Payment callbacks *)

Inductive pre_checkout_reply : Set :=
  | PreCheckoutOk
  | PreCheckoutWrongType
  | PreCheckoutError.

(** [answer_ok]: whether [query.answer(ok=True)] returns. *)
Definition pre_checkout_handler (invoice_payload : string) (answer_ok : bool)
  : pre_checkout_reply :=
  if negb (PyStr.startswith invoice_payload "deposit_") then PreCheckoutWrongType
  else if answer_ok then PreCheckoutOk
  else PreCheckoutError.

(** [update.message.successful_payment], the fields the bot could read. *)
Record successful_payment : Type := SuccessfulPayment {
  payment_payload : string;
  total_amount : Z
}.

Inductive payment_reply : Type :=
  | PaymentIgnored
  | PaymentRaised (e : PyFloat.exn)
  | PaymentCredited (amount new_balance : float).

Definition successful_payment_handler (payment : option successful_payment)
  (user_id : Z) (st : store) : payment_reply * store :=
  match payment with
  | None => (PaymentIgnored, st)
  | Some p =>
      match PyFloat.of_int (total_amount p) with
      | inl e => (PaymentRaised e, st)
      | inr total =>
          let amount := PyFloat.div total (PyFloat.lit 100) in
          let balances := ensure_key user_id (PyFloat.lit 0) (user_balance st) in
          let old := default (PyFloat.lit 0) (balances !! user_id) in
          let new := PyFloat.add old amount in
          (PaymentCredited amount new,
           with_balance st (<[user_id := new]> balances))
      end
  end.

(** [user_balance.get(user_id, 0.0)] *)
Definition balance (user_id : Z) (st : store) : float :=
  default (PyFloat.lit 0) (user_balance st !! user_id).

(** ** Notions used in the statements *)

Definition ind (b : bool) : nat := if b then 1%nat else 0%nat.

(** The three ways in which the body of the loop can end. *)
Inductive step_outcome (w : world) (uid : Z) (a : alert) (s s' : loop_state) : Prop :=
  | step_quiet :
      (forall cur, usd_price (get_crypto_price w (queries s) (crypto_id a)) (crypto_id a) = Some cur ->
                   triggered (direction a) cur (target_price a) = false) ->
      s' = LoopState (live s) (S (queries s)) (sends s)
                     (log s ++ [EvQuery (crypto_id a)]) ->
      step_outcome w uid a s s'
  | step_delivered cur :
      usd_price (get_crypto_price w (queries s) (crypto_id a)) (crypto_id a) = Some cur ->
      triggered (direction a) cur (target_price a) = true ->
      send_message w (sends s) uid = true ->
      s' = LoopState (list_remove a (live s)) (S (queries s)) (S (sends s))
                     (log s ++ [EvQuery (crypto_id a); EvSend uid a true]) ->
      step_outcome w uid a s s'
  | step_failed cur :
      usd_price (get_crypto_price w (queries s) (crypto_id a)) (crypto_id a) = Some cur ->
      triggered (direction a) cur (target_price a) = true ->
      send_message w (sends s) uid = false ->
      s' = LoopState (live s) (S (queries s)) (S (sends s))
                     (log s ++ [EvQuery (crypto_id a); EvSend uid a false]) ->
      step_outcome w uid a s s'.

(** Every stored alert has a target price [> 0]. *)
Definition targets_positive (st : store) : Prop :=
  forall uid l a,
    user_alerts st !! uid = Some l -> a ∈ l ->
    PyFloat.gt (target_price a) (PyFloat.lit 0) = true.

(** [user_portfolio[user_id][crypto_id]], when both keys are present. *)
Definition holding (uid : Z) (cid : string) (st : store) : option float :=
  user_portfolio st !! uid ≫= (.!! cid).

(** [user_favorites.get(user_id, [])] *)
Definition favorites_of (uid : Z) (st : store) : list string :=
  default [] (user_favorites st !! uid).

(** [l.count(cid)] *)
Definition times (cid : string) (l : list string) : nat :=
  length (List.filter (String.eqb cid) l).

(** [1000 <= amount <= 10000000] *)
Definition in_bounds (amount : float) : bool :=
  PyFloat.le (PyFloat.lit 1000) amount && PyFloat.le amount (PyFloat.lit 10000000).

(** ** Concrete inputs used in the examples *)

Definition btc_above_50000 : alert := Alert "bitcoin" (PyFloat.lit 50000) "above".
Definition eth_below_2000 : alert := Alert "ethereum" (PyFloat.lit 2000) "below".

(** User 7 holds two alerts. *)
Definition store_two_alerts : store :=
  with_alerts empty_store {[ 7 := [btc_above_50000; eth_below_2000] ]}.

(** Bitcoin at 50500 and Ether at 1900, whatever is asked; the first send
    fails and the later ones succeed. *)
Definition world_first_send_fails : world :=
  World (fun _ cid => Some {[ "bitcoin"%string := Quote (PyFloat.lit 50500);
                             "ethereum"%string := Quote (PyFloat.lit 1900) ]})
        (fun n _ => negb (Nat.eqb n 0)).

(** A price API that knows every asset, at 48000 dollars. *)
Definition api_all_48000 : string -> price_data :=
  fun cid => Some {[ cid := Quote (PyFloat.lit 48000) ]}.

(** A portfolio in which user 7 already holds 0.1 bitcoin. *)
Definition store_tenth_bitcoin : store :=
  with_portfolio empty_store {[ 7 := {[ "bitcoin"%string := PyFloat.dec 1 1 ]} ]}.

(** ** The handlers that take entries away *)

(** [l.remove(x)] on a list of strings: drops the first occurrence. *)
Fixpoint str_remove (x : string) (l : list string) : list string :=
  match l with
  | [] => []
  | y :: l' => if String.eqb y x then l' else y :: str_remove x l'
  end.

(** *** /remove *)

Inductive remove_reply : Set :=
  | RemoveUsage | RemoveNotFound | RemoveDone.

Definition remove_from_portfolio (user_id : Z) (args : list string) (st : store)
  : remove_reply * store :=
  match args with
  | [] => (RemoveUsage, st)
  | arg0 :: _ =>
      let crypto_input := PyStr.lower arg0 in
      let cid := find_crypto_id crypto_input in
      match user_portfolio st !! user_id with
      | None => (RemoveNotFound, st)
      | Some holdings =>
          match holdings !! cid with
          | None => (RemoveNotFound, st)
          | Some _ =>
              let holdings' := delete cid holdings in
              (RemoveDone,
               with_portfolio st
                 (if bool_decide (holdings' = ∅)
                  then delete user_id (user_portfolio st)
                  else <[user_id := holdings']> (user_portfolio st)))
          end
      end
  end.

(** *** /unfav *)

Definition remove_favorite (user_id : Z) (args : list string) (st : store)
  : remove_reply * store :=
  match args with
  | [] => (RemoveUsage, st)
  | arg0 :: _ =>
      let crypto_input := PyStr.lower arg0 in
      let cid := find_crypto_id crypto_input in
      match user_favorites st !! user_id with
      | None => (RemoveNotFound, st)
      | Some favs =>
          if negb (str_in cid favs) then (RemoveNotFound, st)
          else
            let favs' := str_remove cid favs in
            (RemoveDone,
             with_favorites st
               (match favs' with
                | [] => delete user_id (user_favorites st)
                | _ => <[user_id := favs']> (user_favorites st)
                end))
      end
  end.

(** *** /delalert *)

Inductive delete_reply : Type :=
  | DeleteUsage | DeleteNotFound | DeleteDone (removed_alert : alert).

(** [int(s)] for a string that passed [isdigit]. *)
Definition int_of_digits (s : string) : Z := PyStr.digits_value 0 s.

(** The bounds test comes before [pop], so [pop] always finds its element;
    the last branch is there for totality only. *)
Definition delete_alert (user_id : Z) (args : list string) (st : store)
  : delete_reply * store :=
  match args with
  | [] => (DeleteUsage, st)
  | arg0 :: _ =>
      if negb (PyStr.isdigit arg0) then (DeleteUsage, st)
      else
        let alert_num := int_of_digits arg0 - 1 in
        match user_alerts st !! user_id with
        | None => (DeleteNotFound, st)
        | Some alerts =>
            if (alert_num <? 0) || (Z.of_nat (length alerts) <=? alert_num)
            then (DeleteNotFound, st)
            else
              match alerts !! Z.to_nat alert_num with
              | Some removed_alert =>
                  let alerts' := delete (Z.to_nat alert_num) alerts in
                  (DeleteDone removed_alert,
                   with_alerts st
                     (match alerts' with
                      | [] => delete user_id (user_alerts st)
                      | _ => <[user_id := alerts']> (user_alerts st)
                      end))
              | None => (DeleteNotFound, st)
              end
        end
  end.

(** ** Arguments of the display commands *)



(** ** The bot as a state machine *)

(** One update that can change the store, with what it reads from outside. *)
Inductive action : Type :=
  | DoAdd (py_float : string -> option float) (api : string -> price_data)
          (user_id : Z) (args : list string)
  | DoRemove (user_id : Z) (args : list string)
  | DoFav (api : string -> price_data) (user_id : Z) (args : list string)
  | DoUnfav (user_id : Z) (args : list string)
  | DoAlert (py_float : string -> option float) (api : string -> price_data)
            (user_id : Z) (args : list string)
  | DoDelAlert (user_id : Z) (args : list string)
  | DoCheckAlerts (w : world)
  | DoPayment (payment : option successful_payment) (user_id : Z).

Definition step (st : store) (act : action) : store :=
  match act with
  | DoAdd py_float api u args => (add_to_portfolio py_float api u args st).2
  | DoRemove u args => (remove_from_portfolio u args st).2
  | DoFav api u args => (add_favorite api u args st).2
  | DoUnfav u args => (remove_favorite u args st).2
  | DoAlert py_float api u args => (create_alert py_float api u args st).2
  | DoDelAlert u args => (delete_alert u args st).2
  | DoCheckAlerts w => (check_alerts w st).1
  | DoPayment payment u => (successful_payment_handler payment u st).2
  end.

(** The store after a sequence of updates handled one after the other, from
    the empty dictionaries the module starts with (an update that comes in
    while the alert job waits for a send is not modelled). *)
Definition run (acts : list action) : store := foldl step empty_store acts.

Definition is_payment (act : action) : bool :=
  match act with DoPayment _ _ => true | _ => false end.

(** No user is mapped to an empty portfolio. *)
Definition portfolio_tidy (st : store) : Prop :=
  forall u h, user_portfolio st !! u = Some h -> h <> ∅.

(** No user is mapped to an empty list of favorites, and no list of
    favorites holds an asset twice. *)
Definition favorites_tidy (st : store) : Prop :=
  forall u l, user_favorites st !! u = Some l -> l <> [] /\ NoDup l.

(** Whether an alert is triggered when the price API answers [api]. *)
Definition fires (api : string -> price_data) (a : alert) : bool :=
  match usd_price (api (crypto_id a)) (crypto_id a) with
  | Some current_price => triggered (direction a) current_price (target_price a)
  | None => false
  end.

(** The notifications attempted in a run, as chat and alert, in order. *)
Definition notified (l : list event) : list (Z * alert) :=
  flat_map (fun e => match e with EvSend u a _ => [(u, a)] | _ => [] end) l.

(** [user_alerts.get(user_id, [])] *)
Definition alerts_of (uid : Z) (st : store) : list alert :=
  default [] (user_alerts st !! uid).

(** The direction of an alert is one of the two words, and its asset id is
    in the form [find_crypto_id] returns. *)
Definition alert_well_formed (a : alert) : Prop :=
  (direction a = "above"%string \/ direction a = "below"%string)
  /\ find_crypto_id (crypto_id a) = crypto_id a.

(** Three alerts of user 7, of which the second is not triggered at 50500. *)
Definition store_three_alerts : store :=
  with_alerts empty_store
    {[ 7 := [btc_above_50000; Alert "bitcoin" (PyFloat.lit 60000) "above";
             eth_below_2000] ]}.

(** The prices of [world_first_send_fails], with sends that never fail. *)
Definition world_steady : world :=
  World (get_crypto_price world_first_send_fails) (fun _ _ => true).

(** Every stored alert is well formed. *)
Definition alerts_well_formed (st : store) : Prop :=
  forall u l a, user_alerts st !! u = Some l -> a ∈ l -> alert_well_formed a.

(** * Properties *)

(** ** Float comparisons *)

Lemma SFcompare_refl (x : float) :
  PyFloat.is_nan x = false -> SFcompare x x = Some Eq.
Proof.
  destruct x as [s|s| |s m e]; simpl; try discriminate; intros _;
    try (destruct s; reflexivity).
  rewrite Z.compare_refl, Pos.compare_cont_refl. destruct s; reflexivity.
Qed.

Lemma SFcompare_some_not_nan (x y : float) (c : comparison) :
  SFcompare x y = Some c -> PyFloat.is_nan x = false /\ PyFloat.is_nan y = false.
Proof. destruct x, y; simpl; intros H; try discriminate; auto. Qed.

(** Two finite floats compare equal only when they have the same fields. *)
Lemma SFcompare_finite_eq (s1 s2 : bool) (m1 m2 : positive) (e1 e2 : Z) :
  SFcompare (S754_finite s1 m1 e1) (S754_finite s2 m2 e2) = Some Eq ->
  s1 = s2 /\ m1 = m2 /\ e1 = e2.
Proof.
  simpl. intros H.
  destruct s1, s2; try discriminate;
    destruct (Z.compare_spec e1 e2) as [He|He|He]; try discriminate;
    (split; [reflexivity|]); (split; [|exact He]).
  - apply Pos.compare_eq. unfold Pos.compare.
    destruct (Pos.compare_cont Eq m1 m2); simpl in H; congruence.
  - apply Pos.compare_eq. unfold Pos.compare.
    destruct (Pos.compare_cont Eq m1 m2); simpl in H; congruence.
Qed.

(** [==] on floats is a congruence for [==]: equal floats cannot be told
    apart by a comparison with a third one. *)
Lemma float_eq_cong (x y : float) :
  PyFloat.eq x y = true ->
  forall z, PyFloat.eq x z = PyFloat.eq y z /\ PyFloat.eq z x = PyFloat.eq z y.
Proof.
  unfold PyFloat.eq, SFeqb. intros H z.
  destruct (SFcompare x y) as [[| |]|] eqn:Hxy; try discriminate.
  destruct x as [sx|sx| |sx mx ex], y as [sy|sy| |sy my ey];
    try (simpl in Hxy; discriminate);
    try (simpl in Hxy; destruct sx, sy; discriminate).
  - destruct z; simpl; auto.
  - destruct sx, sy; try (simpl in Hxy; discriminate); auto.
  - apply SFcompare_finite_eq in Hxy as (-> & -> & ->). auto.
Qed.

Lemma float_eq_ge_le (x y : float) :
  PyFloat.eq x y = true -> PyFloat.ge x y = true /\ PyFloat.le x y = true.
Proof.
  unfold PyFloat.eq, PyFloat.ge, PyFloat.le, SFeqb, SFleb.
  destruct (SFcompare x y) as [[| |]|]; intros; try discriminate; auto.
Qed.

(** ** Alert equality and counting *)

Lemma alert_eqb_cong (a b : alert) :
  alert_eqb a b = true ->
  forall c, alert_eqb a c = alert_eqb b c /\ alert_eqb c a = alert_eqb c b.
Proof.
  unfold alert_eqb. intros H c.
  apply andb_true_iff in H as [H Hd]. apply andb_true_iff in H as [Hc Hp].
  apply String.eqb_eq in Hc, Hd.
  destruct (float_eq_cong _ _ Hp (target_price c)) as [E1 E2].
  rewrite Hc, Hd, E1, E2. auto.
Qed.

Lemma triggered_not_nan (d : string) (cur tgt : float) :
  triggered d cur tgt = true -> PyFloat.is_nan tgt = false.
Proof.
  unfold triggered, PyFloat.ge, PyFloat.le, SFleb. intros H.
  destruct (SFcompare cur tgt) as [c|] eqn:Hc.
  - apply SFcompare_some_not_nan in Hc. tauto.
  - rewrite !andb_false_r in H. discriminate.
Qed.

Lemma triggered_alert_eqb_refl (a : alert) (cur : float) :
  triggered (direction a) cur (target_price a) = true -> alert_eqb a a = true.
Proof.
  intros H%triggered_not_nan. unfold alert_eqb, PyFloat.eq, SFeqb.
  rewrite !String.eqb_refl, (SFcompare_refl _ H). reflexivity.
Qed.

Lemma occ_cons (a e : alert) (l : list alert) :
  occ a (e :: l) = (ind (alert_eqb e a) + occ a l)%nat.
Proof. unfold occ. simpl. destruct (alert_eqb e a); reflexivity. Qed.

Lemma occ_list_remove (h a : alert) (l : list alert) :
  (1 <= occ h l)%nat ->
  (occ a (list_remove h l) + ind (alert_eqb h a) = occ a l)%nat.
Proof.
  induction l as [|e l IH]; intros Hh.
  - unfold occ in Hh. simpl in Hh. lia.
  - rewrite occ_cons in Hh. simpl. rewrite occ_cons.
    destruct (alert_eqb e h) eqn:Heh.
    + destruct (alert_eqb_cong _ _ Heh a) as [-> _]. lia.
    + simpl in Hh. rewrite occ_cons. specialize (IH Hh). lia.
Qed.

Lemma list_remove_sublist (h : alert) (l : list alert) :
  sublist (list_remove h l) l.
Proof.
  induction l as [|e l IH]; simpl; [constructor|].
  destruct (alert_eqb e h); [by apply sublist_cons | by apply sublist_skip].
Qed.

Lemma sent_app (u : Z) (a : alert) (ok : bool) (l1 l2 : list event) :
  sent u a ok (l1 ++ l2) = (sent u a ok l1 + sent u a ok l2)%nat.
Proof. unfold sent. by rewrite List.filter_app, length_app. Qed.

Lemma queried_app (l1 l2 : list event) :
  queried (l1 ++ l2) = queried l1 ++ queried l2.
Proof. unfold queried. apply flat_map_app. Qed.

(** ** One iteration of the inner loop *)

Lemma check_alert_outcome (w : world) (uid : Z) (a : alert) (s : loop_state) :
  step_outcome w uid a s (check_alert w uid a s).
Proof.
  unfold check_alert.
  destruct (usd_price _ _) as [cur|] eqn:Hp; simpl.
  - destruct (triggered _ cur _) eqn:Ht.
    + destruct (send_message w (sends s) uid) eqn:Hs.
      * eapply step_delivered; eauto. by rewrite <- app_assoc.
      * eapply step_failed; eauto. by rewrite <- app_assoc.
    + apply step_quiet; [|done]. intros cur' Hc. congruence.
  - apply step_quiet; [|done]. intros cur' Hc. congruence.
Qed.

Lemma is_send_refl (uid : Z) (a h : alert) (ok : bool) :
  sent uid a ok [EvSend uid h ok] = ind (alert_eqb h a).
Proof.
  unfold sent. simpl. rewrite Z.eqb_refl, eqb_reflx. simpl.
  by destruct (alert_eqb h a).
Qed.

Lemma is_send_other_outcome (u uid : Z) (a h : alert) (ok ok' : bool) :
  ok <> ok' -> sent u a ok [EvSend uid h ok'] = 0%nat.
Proof.
  intros Hne. unfold sent. simpl.
  destruct ok, ok'; try congruence; simpl; by rewrite andb_false_r.
Qed.

Lemma is_send_other_user (u uid : Z) (a h : alert) (ok ok' : bool) :
  u <> uid -> sent u a ok [EvSend uid h ok'] = 0%nat.
Proof.
  intros Hne. unfold sent. simpl.
  destruct (Z.eqb_spec uid u); [congruence | done].
Qed.

Lemma sent_snoc_query (u : Z) (a : alert) (ok : bool) (cid : string) (l : list event) :
  sent u a ok (l ++ [EvQuery cid]) = sent u a ok l.
Proof. rewrite sent_app. unfold sent at 2. simpl. lia. Qed.

Lemma sent_snoc_send (u : Z) (a : alert) (ok : bool) (cid : string) (e : event)
  (l : list event) :
  sent u a ok (l ++ [EvQuery cid; e]) = (sent u a ok l + sent u a ok [e])%nat.
Proof. rewrite sent_app. reflexivity. Qed.

(** ** The loop over one user's alerts *)

(** Counting invariant: every delivered notification takes one equal alert
    out of the list, and nothing else does; the alerts whose notification
    failed are still there. *)
Lemma check_user_alerts_counts (w : world) (uid : Z) (R : list alert) :
  forall s,
    (forall a, (occ a R <= occ a (live s))%nat) ->
    let s' := check_user_alerts w uid R s in
    sublist (live s') (live s) /\
    forall a,
      (occ a (live s') + sent uid a true (log s')
       = occ a (live s) + sent uid a true (log s))%nat
      /\ (sent uid a true (log s') + sent uid a false (log s')
          <= occ a R + sent uid a true (log s) + sent uid a false (log s))%nat.
Proof.
  induction R as [|h R IH]; intros s Hinv; simpl.
  - split; [done|]. intros a. lia.
  - destruct (check_alert_outcome w uid h s) as [Hq E|cur Hp Ht Hs E|cur Hp Ht Hs E];
      rewrite E; clear E.
    + destruct (IH (LoopState (live s) (S (queries s)) (sends s)
                      (log s ++ [EvQuery (crypto_id h)]))) as [Hsub Hc].
      { simpl. intros a. specialize (Hinv a). rewrite occ_cons in Hinv. lia. }
      split; [exact Hsub|]. intros a. destruct (Hc a) as [H1 H2].
      cbn [live log] in H1, H2. repeat rewrite sent_snoc_query in H1. repeat rewrite sent_snoc_query in H2.
      rewrite occ_cons. lia.
    + pose proof (triggered_alert_eqb_refl _ _ Ht) as Hrefl.
      assert (1 <= occ h (live s))%nat as Hone.
      { specialize (Hinv h). rewrite occ_cons, Hrefl in Hinv. simpl in Hinv. lia. }
      destruct (IH (LoopState (list_remove h (live s)) (S (queries s)) (S (sends s))
                      (log s ++ [EvQuery (crypto_id h); EvSend uid h true]))) as [Hsub Hc].
      { simpl. intros a. specialize (Hinv a). rewrite occ_cons in Hinv.
        pose proof (occ_list_remove h a _ Hone). lia. }
      split; [etrans; [exact Hsub | apply list_remove_sublist]|].
      intros a. destruct (Hc a) as [H1 H2]. cbn [live log] in H1, H2.
      repeat rewrite sent_snoc_send in H1. repeat rewrite sent_snoc_send in H2.
      rewrite is_send_refl in H1, H2.
      rewrite (is_send_other_outcome uid uid a h false true) in H2 by done.
      pose proof (occ_list_remove h a _ Hone). rewrite occ_cons. lia.
    + destruct (IH (LoopState (live s) (S (queries s)) (S (sends s))
                      (log s ++ [EvQuery (crypto_id h); EvSend uid h false]))) as [Hsub Hc].
      { simpl. intros a. specialize (Hinv a). rewrite occ_cons in Hinv. lia. }
      split; [exact Hsub|]. intros a. destruct (Hc a) as [H1 H2]. cbn [live log] in H1, H2.
      repeat rewrite sent_snoc_send in H1. repeat rewrite sent_snoc_send in H2.
      rewrite is_send_refl in H2.
      rewrite (is_send_other_outcome uid uid a h true false) in H1, H2 by done.
      rewrite occ_cons. lia.
Qed.

(** The loop for one user sends nothing to another user. *)
Lemma check_user_alerts_other (w : world) (uid u : Z) (R : list alert) :
  u <> uid ->
  forall s a ok,
    sent u a ok (log (check_user_alerts w uid R s)) = sent u a ok (log s).
Proof.
  intros Hne. induction R as [|h R IH]; intros s a ok; simpl; [done|].
  rewrite IH.
  destruct (check_alert_outcome w uid h s) as [Hq E|cur Hp Ht Hs E|cur Hp Ht Hs E];
    rewrite E; simpl; rewrite ?sent_snoc_query, ?sent_snoc_send;
    rewrite ?is_send_other_user by done; lia.
Qed.

(** The loop asks the price of each alert of the copy, once, in order. *)
Lemma check_user_alerts_queried (w : world) (uid : Z) (R : list alert) :
  forall s,
    queried (log (check_user_alerts w uid R s))
    = queried (log s) ++ map crypto_id R.
Proof.
  induction R as [|h R IH]; intros s; simpl; [by rewrite app_nil_r|].
  rewrite IH.
  destruct (check_alert_outcome w uid h s) as [Hq E|cur Hp Ht Hs E|cur Hp Ht Hs E];
    rewrite E; simpl; rewrite queried_app; simpl; by rewrite <- app_assoc.
Qed.

(** ** The loop over the users *)

Lemma check_entries_queried (w : world) (entries : list (Z * list alert)) :
  forall t,
    queried (t_log (check_entries w entries t))
    = queried (t_log t) ++ flat_map (fun entry => map crypto_id entry.2) entries.
Proof.
  induction entries as [|[u l] entries IH]; intros t; simpl; [by rewrite app_nil_r|].
  rewrite IH. simpl. rewrite check_user_alerts_queried. simpl.
  by rewrite <- app_assoc.
Qed.

Lemma check_user_log (w : world) (t : tick_state) (u : Z) (l : list alert) :
  t_log (check_user w t (u, l))
  = log (check_user_alerts w u l (LoopState l (t_queries t) (t_sends t) (t_log t))).
Proof. reflexivity. Qed.

Lemma check_user_lookup (w : world) (t : tick_state) (u : Z) (l : list alert) :
  t_alerts (check_user w t (u, l))
  = <[u := live (check_user_alerts w u l
                   (LoopState l (t_queries t) (t_sends t) (t_log t)))]> (t_alerts t).
Proof. reflexivity. Qed.

Lemma check_entries_cons (w : world) (entry : Z * list alert)
  (entries : list (Z * list alert)) (t : tick_state) :
  check_entries w (entry :: entries) t = check_entries w entries (check_user w t entry).
Proof. reflexivity. Qed.

(** Users whose turn does not come in [entries] keep their list, and nothing
    is sent to them. *)
Lemma check_entries_other (w : world) (uid : Z) (entries : list (Z * list alert)) :
  uid ∉ entries.*1 ->
  forall t,
    t_alerts (check_entries w entries t) !! uid = t_alerts t !! uid
    /\ forall a ok, sent uid a ok (t_log (check_entries w entries t))
                    = sent uid a ok (t_log t).
Proof.
  induction entries as [|[u l] entries IH]; intros Hnot t; [done|].
  rewrite fmap_cons, not_elem_of_cons in Hnot. destruct Hnot as [Hne Hnot].
  simpl in Hne. destruct (IH Hnot (check_user w t (u, l))) as [H1 H2].
  rewrite check_entries_cons, H1. split.
  - rewrite check_user_lookup. by rewrite lookup_insert_ne.
  - intros a ok. rewrite H2, check_user_log.
    by rewrite check_user_alerts_other.
Qed.

(** The user whose list is [L] when the run starts ends with a list [L'] that
    is [L] without one equal alert per delivered notification. *)
Lemma check_entries_user (w : world) (uid : Z) (L : list alert)
  (entries : list (Z * list alert)) :
  NoDup entries.*1 ->
  (uid, L) ∈ entries ->
  forall t,
    exists L',
      t_alerts (check_entries w entries t) !! uid = Some L'
      /\ sublist L' L
      /\ forall a,
          (occ a L' + sent uid a true (t_log (check_entries w entries t))
           = occ a L + sent uid a true (t_log t))%nat
          /\ (sent uid a false (t_log (check_entries w entries t))
              <= occ a L' + sent uid a false (t_log t))%nat.
Proof.
  induction entries as [|[u l] entries IH]; intros Hnd Hin t.
  - by apply elem_of_nil in Hin.
  - rewrite fmap_cons in Hnd. apply NoDup_cons in Hnd as [Hfresh Hnd].
    simpl in Hfresh. apply elem_of_cons in Hin as [Heq|Hin].
    + injection Heq as <- <-. rewrite check_entries_cons.
      destruct (check_entries_other w uid entries Hfresh (check_user w t (uid, L)))
        as [H1 H2].
      destruct (check_user_alerts_counts w uid L
                  (LoopState L (t_queries t) (t_sends t) (t_log t))) as [Hsub Hc].
      { intros a. simpl. lia. }
      cbn [live log] in Hsub, Hc.
      eexists. split; [|split].
      * rewrite H1, check_user_lookup. apply lookup_insert_eq.
      * exact Hsub.
      * intros a. rewrite !H2, check_user_log. destruct (Hc a) as [Ha Hb]. lia.
    + assert (u <> uid) as Hne.
      { intros ->. apply Hfresh. apply list_elem_of_fmap. by exists (uid, L). }
      rewrite check_entries_cons.
      destruct (IH Hnd Hin (check_user w t (u, l))) as (L' & H1 & Hsub & Hc).
      exists L'. split; [exact H1|]. split; [exact Hsub|].
      intros a. destruct (Hc a) as [Ha Hb]. rewrite check_user_log in Ha, Hb.
      rewrite !(check_user_alerts_other w u uid l) in Ha, Hb by done.
      cbn [log] in Ha, Hb. lia.
Qed.

(** ** The alert evaluator *)

(** C1. In one run of [check_alerts], for a user whose list is [L]:
    an alert found triggered is taken out of the list exactly when its
    [send_message] returned (first conjunct, for the body of the loop:
    after a delivered notification the list is [alerts.remove(alert)], after
    a failed one it is the same list); over the whole run the user's final
    list [L'] is a sub-sequence of [L] in which each alert has lost exactly
    as many equal occurrences as notifications were delivered for it; every
    alert whose notification failed is still in [L']; and the next run asks
    the price of every alert of [L'] again. *)
Theorem check_alerts_removes_iff_delivered (w : world) (st : store) (uid : Z)
  (L : list alert) :
  user_alerts st !! uid = Some L ->
  (forall (a : alert) (s : loop_state) (cur : float),
      usd_price (get_crypto_price w (queries s) (crypto_id a)) (crypto_id a) = Some cur ->
      triggered (direction a) cur (target_price a) = true ->
      live (check_alert w uid a s)
      = if send_message w (sends s) uid then list_remove a (live s) else live s)
  /\ exists L',
      user_alerts (check_alerts w st).1 !! uid = Some L'
      /\ sublist L' L
      /\ (forall a, (occ a L' + sent uid a true (check_alerts w st).2 = occ a L)%nat)
      /\ (forall a, (sent uid a false (check_alerts w st).2 <= occ a L')%nat)
      /\ (forall w' e, e ∈ L' ->
            crypto_id e ∈ queried (check_alerts w' (check_alerts w st).1).2).
Proof.
  intros HL. split.
  - intros a s cur Hp Ht. unfold check_alert. rewrite Hp, Ht. simpl.
    by destruct (send_message w (sends s) uid).
  - pose proof (check_entries_user w uid L (map_to_list (user_alerts st))
                  (NoDup_fst_map_to_list _)) as H.
    destruct (H ltac:(by apply elem_of_map_to_list)
                (TickState (user_alerts st) 0 0 [])) as (L' & HL' & Hsub & Hc).
    exists L'. unfold check_alerts. cbn [fst snd with_alerts user_alerts].
    split; [exact HL'|]. split; [exact Hsub|].
    split; [|split].
    + intros a. destruct (Hc a) as [Ha _]. cbn [t_log] in Ha.
      unfold sent at 2 in Ha. simpl in Ha. lia.
    + intros a. destruct (Hc a) as [_ Hb]. cbn [t_log] in Hb.
      unfold sent at 2 in Hb. simpl in Hb. lia.
    + intros w' e He. rewrite check_entries_queried. simpl.
      apply list_elem_of_In, in_flat_map.
      exists (uid, L'). split.
      * apply list_elem_of_In, elem_of_map_to_list. exact HL'.
      * simpl. apply in_map. by apply list_elem_of_In.
Qed.

Lemma check_alerts_removes_iff_delivered_witness :
  user_alerts store_two_alerts !! 7 = Some [btc_above_50000; eth_below_2000]
  /\ exists L',
      user_alerts (check_alerts world_first_send_fails store_two_alerts).1 !! 7 = Some L'
      /\ (forall a, (sent 7 a false (check_alerts world_first_send_fails store_two_alerts).2
                     <= occ a L')%nat).
Proof.
  split; [reflexivity|].
  destruct (check_alerts_removes_iff_delivered world_first_send_fails
              store_two_alerts 7 [btc_above_50000; eth_below_2000] eq_refl)
    as (_ & L' & H1 & _ & _ & H2 & _).
  exists L'. split; [exact H1 | exact H2].
Defined.

(** C2. When the price of the alert's asset is known, the body of the loop
    attempts a notification exactly when the direction is ['above'] and the
    current price is [>=] the target, or the direction is ['below'] and the
    current price is [<=] the target; otherwise it touches neither the list
    nor the send counter.  A current price [==] the target triggers for
    both directions. *)
Theorem check_alert_triggered_iff (w : world) (uid : Z) (a : alert)
  (s : loop_state) (cur : float) :
  usd_price (get_crypto_price w (queries s) (crypto_id a)) (crypto_id a) = Some cur ->
  let s' := check_alert w uid a s in
  let cond :=
    (direction a = "above"%string /\ PyFloat.ge cur (target_price a) = true)
    \/ (direction a = "below"%string /\ PyFloat.le cur (target_price a) = true) in
  (log s' = log s ++ [EvQuery (crypto_id a);
                      EvSend uid a (send_message w (sends s) uid)] <-> cond)
  /\ (sends s' = S (sends s) <-> cond)
  /\ (~ cond -> s' = LoopState (live s) (S (queries s)) (sends s)
                               (log s ++ [EvQuery (crypto_id a)]))
  /\ (PyFloat.eq cur (target_price a) = true ->
      direction a = "above"%string \/ direction a = "below"%string ->
      cond).
Proof.
  intros Hp s' cond.
  assert (triggered (direction a) cur (target_price a) = true <-> cond) as Hiff.
  { unfold triggered, cond.
    destruct (String.eqb_spec (direction a) "above") as [Ha|Ha];
      destruct (String.eqb_spec (direction a) "below") as [Hb|Hb]; simpl;
      destruct (PyFloat.ge cur (target_price a)), (PyFloat.le cur (target_price a));
      split; intros H; try done; try tauto; try congruence;
      try (destruct H as [[? ?]|[? ?]]; congruence). }
  assert (PyFloat.eq cur (target_price a) = true ->
          direction a = "above"%string \/ direction a = "below"%string -> cond) as Hb.
  { intros He Hd. destruct (float_eq_ge_le _ _ He) as [Hge Hle].
    unfold cond. tauto. }
  subst s'. unfold check_alert. rewrite Hp.
  destruct (triggered (direction a) cur (target_price a)) eqn:Ht;
    cbn [log sends live queries].
  - assert cond as Hc by (by apply Hiff).
    split; [|split; [|split]]; [| |tauto|exact Hb].
    + split; [done|]. intros _. by rewrite <- app_assoc.
    + split; done.
  - assert (~ cond) as Hn by (intros Hc; apply Hiff in Hc; discriminate).
    split; [|split; [|split]]; [| |done|exact Hb].
    + split; [|tauto]. intros E. apply (f_equal length) in E.
      rewrite !length_app in E. simpl in E. lia.
    + split; [|tauto]. intros E. lia.
Qed.

Lemma check_alert_triggered_iff_witness :
  usd_price (get_crypto_price world_first_send_fails 0 "bitcoin") "bitcoin"
  = Some (PyFloat.lit 50500)
  /\ sends (check_alert world_first_send_fails 7 btc_above_50000
              (LoopState [btc_above_50000] 0 0 [])) = 1%nat.
Proof.
  split; [reflexivity|].
  apply (check_alert_triggered_iff world_first_send_fails 7 btc_above_50000
           (LoopState [btc_above_50000] 0 0 []) (PyFloat.lit 50500) eq_refl).
  left. split; reflexivity.
Defined.

Lemma length_assets (es : list (Z * list alert)) :
  length (flat_map (fun entry => map crypto_id entry.2) es)
  = length (concat (map snd es)).
Proof.
  induction es as [|[u l] es IH]; simpl; [done|].
  by rewrite !length_app, length_map, IH.
Qed.

(** C3 as stated does not hold: with two alerts in the store the run calls
    the price API twice, once for each alert, each time for one asset. *)
Lemma check_alerts_not_one_query :
  queried (check_alerts world_first_send_fails store_two_alerts).2
  = ["bitcoin"; "ethereum"]%string
  /\ ~ exists q, queried (check_alerts world_first_send_fails store_two_alerts).2 = [q].
Proof.
  assert (queried (check_alerts world_first_send_fails store_two_alerts).2
          = ["bitcoin"; "ethereum"]%string) as E by (vm_compute; reflexivity).
  split; [exact E|]. rewrite E. intros [q Hq]. discriminate.
Qed.

(** C3 as amended. One run of [check_alerts] calls [get_crypto_price] once
    for every alert of every user, in the order in which the alerts are
    visited, each call asking for that alert's asset alone: the assets asked
    are the assets of the alerts with their repetitions, so the number of
    calls is the number of alerts. *)
Theorem check_alerts_one_query_per_alert (w : world) (st : store) :
  queried (check_alerts w st).2
  = flat_map (fun entry => map crypto_id entry.2) (map_to_list (user_alerts st))
  /\ length (queried (check_alerts w st).2)
     = length (concat (map snd (map_to_list (user_alerts st)))).
Proof.
  assert (queried (check_alerts w st).2
          = flat_map (fun entry => map crypto_id entry.2)
              (map_to_list (user_alerts st))) as E.
  { unfold check_alerts. cbn [snd]. by rewrite check_entries_queried. }
  split; [exact E|]. rewrite E. apply length_assets.
Qed.

(** ** Dictionaries *)

Lemma ensure_key_lookup {V : Type} (k : Z) (v : V) (d : gmap Z V) :
  default v (ensure_key k v d !! k) = default v (d !! k).
Proof.
  unfold ensure_key. destruct (d !! k) as [x|] eqn:E; simpl.
  - by rewrite E.
  - by rewrite lookup_insert_eq.
Qed.

Lemma insert_ensure_key {V : Type} (k : Z) (v x : V) (d : gmap Z V) :
  <[k := x]> (ensure_key k v d) = <[k := x]> d.
Proof.
  unfold ensure_key. destruct (d !! k); [done|]. apply insert_insert_eq.
Qed.

Lemma ensure_key_present {V : Type} (k : Z) (v x : V) (d : gmap Z V) :
  d !! k = Some x -> ensure_key k v d = d.
Proof. unfold ensure_key. by intros ->. Qed.

(** ** Creating alerts *)

(** C4 as stated does not hold: [/alert bitcoin -5 above] is accepted, and
    the empty store, where every stored alert trivially has a positive
    target, becomes a store with an alert whose target is [-5.0]. *)
Lemma create_alert_negative_target :
  targets_positive empty_store
  /\ create_alert PyStr.decimal_float api_all_48000 7
       ["bitcoin"; "-5"; "above"]%string empty_store
     = (AlertCreated (PyFloat.lit 48000),
        with_alerts empty_store
          {[ 7 := [Alert "bitcoin" (SFopp (PyFloat.lit 5)) "above"] ]})
  /\ ~ targets_positive
         (create_alert PyStr.decimal_float api_all_48000 7
            ["bitcoin"; "-5"; "above"]%string empty_store).2.
Proof.
  assert (create_alert PyStr.decimal_float api_all_48000 7
            ["bitcoin"; "-5"; "above"]%string empty_store
          = (AlertCreated (PyFloat.lit 48000),
             with_alerts empty_store
               {[ 7 := [Alert "bitcoin" (SFopp (PyFloat.lit 5)) "above"] ]})) as E
    by (vm_compute; reflexivity).
  split; [|split; [exact E|]].
  - intros uid l a Hl. cbn in Hl. by rewrite lookup_empty in Hl.
  - rewrite E. intros H.
    specialize (H 7 _ (Alert "bitcoin" (SFopp (PyFloat.lit 5)) "above") eq_refl).
    cbn [snd] in H. specialize (H ltac:(apply list_elem_of_singleton; reflexivity)).
    vm_compute in H. discriminate.
Qed.

(** C4 as amended. [create_alert] does not look at the sign of the price:
    whenever the price argument is a float for [float()] (of either sign,
    zero, infinite or NaN), the direction is ['above'] or ['below'] after
    lowering and the price API knows the asset, the alert is appended to the
    user's list with exactly that target price and the other users' lists
    are untouched. *)
Theorem create_alert_stores_any_target (py_float : string -> option float)
  (api : string -> price_data) (uid : Z) (c p d : string) (rest : list string)
  (st : store) (target cur : float) :
  py_float p = Some target ->
  PyStr.lower d = "above"%string \/ PyStr.lower d = "below"%string ->
  usd_price (api (find_crypto_id (PyStr.lower c))) (find_crypto_id (PyStr.lower c))
  = Some cur ->
  let new := Alert (find_crypto_id (PyStr.lower c)) target (PyStr.lower d) in
  let st' := (create_alert py_float api uid (c :: p :: d :: rest) st).2 in
  (create_alert py_float api uid (c :: p :: d :: rest) st).1 = AlertCreated cur
  /\ user_alerts st' !! uid = Some (default [] (user_alerts st !! uid) ++ [new])
  /\ (forall u, u <> uid -> user_alerts st' !! u = user_alerts st !! u)
  /\ target_price new = target.
Proof.
  intros Hp Hd Hc new st'. subst st'. unfold create_alert.
  rewrite Hp, Hc.
  assert (negb (String.eqb (PyStr.lower d) "above" || String.eqb (PyStr.lower d) "below")
          = false) as ->.
  { destruct Hd as [-> | ->]; reflexivity. }
  cbn [fst snd with_alerts user_alerts].
  rewrite ensure_key_lookup, insert_ensure_key.
  split; [done|]. split; [apply lookup_insert_eq|]. split; [|done].
  intros u Hu. by rewrite lookup_insert_ne.
Qed.

Lemma create_alert_stores_any_target_witness :
  PyStr.decimal_float "-5" = Some (SFopp (PyFloat.lit 5))
  /\ user_alerts (create_alert PyStr.decimal_float api_all_48000 7
                    ["BTC"; "-5"; "Below"]%string empty_store).2 !! 7
     = Some [Alert "bitcoin" (SFopp (PyFloat.lit 5)) "below"].
Proof.
  split; [vm_compute; reflexivity|].
  apply (create_alert_stores_any_target PyStr.decimal_float api_all_48000 7
           "BTC" "-5" "Below" [] empty_store (SFopp (PyFloat.lit 5))
           (PyFloat.lit 48000)).
  - vm_compute; reflexivity.
  - right. vm_compute; reflexivity.
  - vm_compute; reflexivity.
Defined.

(** ** The portfolio *)

(** C5 as stated does not hold: [/add bitcoin -5] is not refused; it answers
    as after any other addition and writes [-5.0] into a portfolio that was
    empty. *)
Lemma add_to_portfolio_negative_amount :
  PyStr.decimal_float "-5" = Some (SFopp (PyFloat.lit 5))
  /\ PyFloat.le (SFopp (PyFloat.lit 5)) (PyFloat.lit 0) = true
  /\ add_to_portfolio PyStr.decimal_float api_all_48000 7
       ["bitcoin"; "-5"]%string empty_store
     = (PortfolioAdded,
        with_portfolio empty_store
          {[ 7 := {[ "bitcoin"%string := SFopp (PyFloat.lit 5) ]} ]})
  /\ user_portfolio
       (add_to_portfolio PyStr.decimal_float api_all_48000 7
          ["bitcoin"; "-5"]%string empty_store).2
     <> user_portfolio empty_store.
Proof.
  assert (add_to_portfolio PyStr.decimal_float api_all_48000 7
            ["bitcoin"; "-5"]%string empty_store
          = (PortfolioAdded,
             with_portfolio empty_store
               {[ 7 := {[ "bitcoin"%string := SFopp (PyFloat.lit 5) ]} ]})) as E
    by (vm_compute; reflexivity).
  split; [vm_compute; reflexivity|]. split; [vm_compute; reflexivity|].
  split; [exact E|]. rewrite E. cbn [snd with_portfolio user_portfolio empty_store].
  intros H. apply (f_equal (fun m => m !! 7)) in H.
  rewrite lookup_singleton_eq, lookup_empty in H. discriminate.
Qed.

(** What [add_to_portfolio] does once the amount is a float and the price
    API knows the asset, whatever the amount. *)
Lemma add_to_portfolio_known (py_float : string -> option float)
  (api : string -> price_data) (uid : Z) (c q : string) (rest : list string)
  (st : store) (amount : float) :
  py_float q = Some amount ->
  has_price (api (find_crypto_id (PyStr.lower c))) (find_crypto_id (PyStr.lower c)) = true ->
  let cid := find_crypto_id (PyStr.lower c) in
  let holdings := default ∅ (user_portfolio st !! uid) in
  add_to_portfolio py_float api uid (c :: q :: rest) st
  = (PortfolioAdded,
     with_portfolio st
       (<[uid := <[cid := match holdings !! cid with
                          | Some old => PyFloat.add old amount
                          | None => amount
                          end]> holdings]> (user_portfolio st))).
Proof.
  intros Hq Hc cid holdings. unfold add_to_portfolio. rewrite Hq.
  fold cid. fold cid in Hc. rewrite Hc. cbn [negb].
  rewrite ensure_key_lookup, insert_ensure_key. fold holdings.
  by destruct (holdings !! cid).
Qed.

Lemma holding_after_add (uid : Z) (cid : string) (st : store) (x : float)
  (h : gmap string float) (m : gmap Z (gmap string float)) :
  holding uid cid (with_portfolio st (<[uid := <[cid := x]> h]> m)) = Some x.
Proof.
  unfold holding. cbn [user_portfolio with_portfolio].
  rewrite lookup_insert_eq. simpl. apply lookup_insert_eq.
Qed.

(** C5 as amended. [add_to_portfolio] has no check on the sign of the
    quantity and no refusal for it: for every quantity that [float()]
    accepts, positive or not, and an asset the price API knows, it answers
    that the asset was added, adds the quantity to the entry when there is
    one and creates the entry with that quantity when there is none, and
    leaves the other assets and the other users as they were. *)
Theorem add_to_portfolio_any_amount (py_float : string -> option float)
  (api : string -> price_data) (uid : Z) (c q : string) (rest : list string)
  (st : store) (amount : float) :
  py_float q = Some amount ->
  has_price (api (find_crypto_id (PyStr.lower c))) (find_crypto_id (PyStr.lower c)) = true ->
  let cid := find_crypto_id (PyStr.lower c) in
  let r := add_to_portfolio py_float api uid (c :: q :: rest) st in
  r.1 = PortfolioAdded
  /\ holding uid cid r.2
     = Some (match holding uid cid st with
             | Some old => PyFloat.add old amount
             | None => amount
             end)
  /\ (forall c', c' <> cid -> holding uid c' r.2 = holding uid c' st)
  /\ (forall u, u <> uid -> user_portfolio r.2 !! u = user_portfolio st !! u).
Proof.
  intros Hq Hc cid r. subst r.
  rewrite (add_to_portfolio_known py_float api uid c q rest st amount Hq Hc).
  fold cid. cbn [fst snd]. split; [done|]. split; [|split].
  - rewrite holding_after_add. unfold holding.
    destruct (user_portfolio st !! uid) as [h|]; simpl; [done|].
    by rewrite lookup_empty.
  - intros c' Hc'. unfold holding. cbn [user_portfolio with_portfolio].
    rewrite lookup_insert_eq. simpl. rewrite lookup_insert_ne by done.
    destruct (user_portfolio st !! uid) as [h|]; simpl; [done|].
    by rewrite lookup_empty.
  - intros u Hu. cbn [user_portfolio with_portfolio]. by rewrite lookup_insert_ne.
Qed.

Lemma add_to_portfolio_any_amount_witness :
  PyStr.decimal_float "-5" = Some (SFopp (PyFloat.lit 5))
  /\ holding 7 "bitcoin"
       (add_to_portfolio PyStr.decimal_float api_all_48000 7
          ["btc"; "-5"]%string empty_store).2
     = Some (SFopp (PyFloat.lit 5)).
Proof.
  split; [vm_compute; reflexivity|].
  apply (add_to_portfolio_any_amount PyStr.decimal_float api_all_48000 7
           "btc" "-5" [] empty_store (SFopp (PyFloat.lit 5))).
  - vm_compute; reflexivity.
  - vm_compute; reflexivity.
Defined.

(** C9 as stated does not hold: with 0.1 bitcoin in the portfolio, adding
    0.2 and then 0.3 stores 0.6000000000000001, while adding 0.5, which is
    [0.2 + 0.3], stores 0.6. *)
Lemma add_to_portfolio_not_associative :
  PyStr.decimal_float "0.5"
  = option_map (PyFloat.add (PyFloat.dec 2 1)) (Some (PyFloat.dec 3 1))
  /\ PyStr.decimal_float "0.2" = Some (PyFloat.dec 2 1)
  /\ PyStr.decimal_float "0.3" = Some (PyFloat.dec 3 1)
  /\ holding 7 "bitcoin"
       (add_to_portfolio PyStr.decimal_float api_all_48000 7 ["bitcoin"; "0.3"]%string
          (add_to_portfolio PyStr.decimal_float api_all_48000 7 ["bitcoin"; "0.2"]%string
             store_tenth_bitcoin).2).2
     = Some (S754_finite false 5404319552844596 (-53))
  /\ holding 7 "bitcoin"
       (add_to_portfolio PyStr.decimal_float api_all_48000 7 ["bitcoin"; "0.5"]%string
          store_tenth_bitcoin).2
     = Some (S754_finite false 5404319552844595 (-53))
  /\ holding 7 "bitcoin"
       (add_to_portfolio PyStr.decimal_float api_all_48000 7 ["bitcoin"; "0.3"]%string
          (add_to_portfolio PyStr.decimal_float api_all_48000 7 ["bitcoin"; "0.2"]%string
             store_tenth_bitcoin).2).2
     <> holding 7 "bitcoin"
          (add_to_portfolio PyStr.decimal_float api_all_48000 7 ["bitcoin"; "0.5"]%string
             store_tenth_bitcoin).2.
Proof.
  repeat split; try (vm_compute; reflexivity).
  vm_compute. discriminate.
Qed.

(** C9 as amended. Adding [a] and then [b] of an asset stores [(q + a) + b]
    when the asset was held with quantity [q], and adding [a + b] once stores
    [q + (a + b)], both sums being binary64 sums, rounded at each step; when
    the asset was not held, both ways store [a + b] and end in the same
    store. *)
Theorem add_to_portfolio_twice_or_once (py_float : string -> option float)
  (api1 api2 api3 : string -> price_data) (uid : Z) (c sa sb sab : string)
  (st : store) (a b : float) :
  let cid := find_crypto_id (PyStr.lower c) in
  py_float sa = Some a ->
  py_float sb = Some b ->
  py_float sab = Some (PyFloat.add a b) ->
  has_price (api1 cid) cid = true ->
  has_price (api2 cid) cid = true ->
  has_price (api3 cid) cid = true ->
  let twice :=
    (add_to_portfolio py_float api2 uid [c; sb]
       (add_to_portfolio py_float api1 uid [c; sa] st).2).2 in
  let once := (add_to_portfolio py_float api3 uid [c; sab] st).2 in
  holding uid cid twice
  = Some (match holding uid cid st with
          | Some q => PyFloat.add (PyFloat.add q a) b
          | None => PyFloat.add a b
          end)
  /\ holding uid cid once
     = Some (match holding uid cid st with
             | Some q => PyFloat.add q (PyFloat.add a b)
             | None => PyFloat.add a b
             end)
  /\ (holding uid cid st = None -> twice = once).
Proof.
  intros cid Ha Hb Hab H1 H2 H3 twice once. subst twice once.
  rewrite (add_to_portfolio_known py_float api1 uid c sa [] st a Ha H1).
  rewrite (add_to_portfolio_known py_float api3 uid c sab [] st _ Hab H3).
  cbn [snd].
  rewrite (add_to_portfolio_known py_float api2 uid c sb [] _ b Hb H2).
  cbn [snd]. fold cid. cbn [user_portfolio with_portfolio].
  rewrite lookup_insert_eq. cbn [from_option id]. rewrite lookup_insert_eq.
  rewrite !insert_insert_eq.
  set (h := default ∅ (user_portfolio st !! uid)).
  assert (holding uid cid st = h !! cid) as Hh.
  { unfold holding, h. destruct (user_portfolio st !! uid); simpl; [done|].
    by rewrite lookup_empty. }
  rewrite !holding_after_add, Hh.
  split; [by destruct (h !! cid)|]. split; [by destruct (h !! cid)|].
  intros ->. reflexivity.
Qed.

Lemma add_to_portfolio_twice_or_once_witness :
  PyStr.decimal_float "0.5" = Some (PyFloat.add (PyFloat.dec 2 1) (PyFloat.dec 3 1))
  /\ (add_to_portfolio PyStr.decimal_float api_all_48000 7 ["bitcoin"; "0.3"]%string
        (add_to_portfolio PyStr.decimal_float api_all_48000 7 ["bitcoin"; "0.2"]%string
           empty_store).2).2
     = (add_to_portfolio PyStr.decimal_float api_all_48000 7 ["bitcoin"; "0.5"]%string
          empty_store).2.
Proof.
  split; [vm_compute; reflexivity|].
  apply (add_to_portfolio_twice_or_once PyStr.decimal_float
           api_all_48000 api_all_48000 api_all_48000 7 "bitcoin" "0.2" "0.3" "0.5"
           empty_store (PyFloat.dec 2 1) (PyFloat.dec 3 1));
    vm_compute; reflexivity.
Defined.

(** ** Favorites *)

Lemma str_in_spec (x : string) (l : list string) :
  str_in x l = true <-> x ∈ l.
Proof.
  unfold str_in. rewrite existsb_exists. split.
  - intros (y & Hy & E). apply String.eqb_eq in E as ->. by apply list_elem_of_In.
  - intros H. exists x. split; [by apply list_elem_of_In | apply String.eqb_refl].
Qed.

Lemma times_absent (x : string) (l : list string) :
  x ∉ l -> times x l = 0%nat.
Proof.
  unfold times. induction l as [|y l IH]; intros H; simpl; [done|].
  apply not_elem_of_cons in H as [Hne H].
  destruct (String.eqb_spec x y); [done | by apply IH].
Qed.

Lemma times_snoc (x : string) (l : list string) :
  times x (l ++ [x]) = S (times x l).
Proof.
  unfold times. rewrite List.filter_app, length_app. simpl.
  rewrite String.eqb_refl. simpl. lia.
Qed.

Lemma times_NoDup (x : string) (l : list string) :
  NoDup l -> x ∈ l -> times x l = 1%nat.
Proof.
  induction 1 as [|y l Hy Hnd IH]; intros Hin; [by apply elem_of_nil in Hin|].
  unfold times. simpl. destruct (String.eqb_spec x y) as [->|Hne]; simpl.
  - f_equal. by apply times_absent.
  - apply elem_of_cons in Hin as [?|Hin]; [done | by apply IH].
Qed.

Lemma favorites_of_insert (uid : Z) (st : store) (l : list string)
  (m : gmap Z (list string)) :
  favorites_of uid (with_favorites st (<[uid := l]> m)) = l.
Proof.
  unfold favorites_of. cbn [user_favorites with_favorites].
  by rewrite lookup_insert_eq.
Qed.

Lemma with_favorites_same (st : store) : with_favorites st (user_favorites st) = st.
Proof. by destruct st. Qed.

(** What [add_favorite] does once the price API knows the asset. *)
Lemma add_favorite_known (api : string -> price_data) (uid : Z) (c : string)
  (rest : list string) (st : store) :
  let cid := find_crypto_id (PyStr.lower c) in
  has_price (api cid) cid = true ->
  add_favorite api uid (c :: rest) st
  = if str_in cid (favorites_of uid st)
    then (FavAlreadyPresent, st)
    else (FavAdded,
          with_favorites st
            (<[uid := favorites_of uid st ++ [cid]]> (user_favorites st))).
Proof.
  intros cid Hc. unfold add_favorite. fold cid. rewrite Hc. cbn [negb].
  rewrite ensure_key_lookup, insert_ensure_key. fold (favorites_of uid st).
  destruct (str_in cid (favorites_of uid st)) eqn:Hin; cbn [negb]; [|done].
  f_equal. unfold favorites_of in Hin.
  destruct (user_favorites st !! uid) as [l|] eqn:E; [|done].
  rewrite (ensure_key_present _ _ _ _ E). apply with_favorites_same.
Qed.

(** C8. Two calls of [/fav] for the same asset, both with a price API that
    knows it: the second call answers that the asset is already there and
    leaves the store as the first call left it.  When the asset was not yet
    a favorite the first call answers that it was added, appends it, and the
    list then holds it exactly once; when it was one, the first call changes
    nothing either.  A list without repetitions stays without repetitions
    and holds the asset exactly once. *)
Theorem add_favorite_idempotent (api1 api2 : string -> price_data) (uid : Z)
  (c : string) (rest1 rest2 : list string) (st : store) :
  let cid := find_crypto_id (PyStr.lower c) in
  has_price (api1 cid) cid = true ->
  has_price (api2 cid) cid = true ->
  let r1 := add_favorite api1 uid (c :: rest1) st in
  let r2 := add_favorite api2 uid (c :: rest2) r1.2 in
  r2.1 = FavAlreadyPresent
  /\ r2.2 = r1.2
  /\ (cid ∉ favorites_of uid st ->
      r1.1 = FavAdded
      /\ favorites_of uid r2.2 = favorites_of uid st ++ [cid]
      /\ times cid (favorites_of uid r2.2) = 1%nat)
  /\ (cid ∈ favorites_of uid st -> r1.1 = FavAlreadyPresent /\ r1.2 = st)
  /\ (NoDup (favorites_of uid st) ->
      NoDup (favorites_of uid r2.2) /\ times cid (favorites_of uid r2.2) = 1%nat).
Proof.
  intros cid H1 H2 r1 r2.
  assert (r1 = if str_in cid (favorites_of uid st)
               then (FavAlreadyPresent, st)
               else (FavAdded,
                     with_favorites st
                       (<[uid := favorites_of uid st ++ [cid]]> (user_favorites st))))
    as E1 by (by apply add_favorite_known).
  assert (cid ∈ favorites_of uid r1.2) as Hin1.
  { rewrite E1. destruct (str_in cid (favorites_of uid st)) eqn:Hin; cbn [snd].
    - by apply str_in_spec.
    - rewrite favorites_of_insert. apply elem_of_app. right.
      by apply list_elem_of_singleton. }
  assert (r2 = (FavAlreadyPresent, r1.2)) as E2.
  { subst r2. rewrite (add_favorite_known api2 uid c rest2 r1.2 H2). fold cid.
    apply str_in_spec in Hin1. by rewrite Hin1. }
  rewrite E2. cbn [fst snd]. split; [done|]. split; [done|].
  rewrite E1. split; [|split].
  - intros Hnot. assert (str_in cid (favorites_of uid st) = false) as ->.
    { apply not_true_is_false. by rewrite str_in_spec. }
    cbn [fst snd]. rewrite favorites_of_insert.
    split; [done|]. split; [done|]. rewrite times_snoc. f_equal.
    by apply times_absent.
  - intros Hin. apply str_in_spec in Hin. by rewrite Hin.
  - intros Hnd. destruct (str_in cid (favorites_of uid st)) eqn:Hin; cbn [snd].
    + apply str_in_spec in Hin. split; [done | by apply times_NoDup].
    + assert (cid ∉ favorites_of uid st) as Hnot.
      { rewrite <- str_in_spec. by rewrite Hin. }
      rewrite favorites_of_insert. split.
      * apply NoDup_app. split; [done|]. split; [|apply NoDup_singleton].
        intros x Hx ->%list_elem_of_singleton. done.
      * rewrite times_snoc. f_equal. by apply times_absent.
Qed.

Lemma add_favorite_idempotent_witness :
  has_price (api_all_48000 "bitcoin") "bitcoin" = true
  /\ (add_favorite api_all_48000 7 ["BTC"]%string
        (add_favorite api_all_48000 7 ["BTC"]%string empty_store).2).1
     = FavAlreadyPresent.
Proof.
  split; [vm_compute; reflexivity|].
  apply (add_favorite_idempotent api_all_48000 api_all_48000 7 "BTC" [] []
           empty_store); vm_compute; reflexivity.
Defined.

(** ** Deposits *)

Lemma SFcompare_antisym (x y : float) :
  SFcompare y x = option_map CompOpp (SFcompare x y).
Proof.
  destruct x as [sx|sx| |sx mx ex], y as [sy|sy| |sy my ey]; simpl;
    try reflexivity; try (destruct sx; reflexivity); try (destruct sy; reflexivity);
    try (destruct sx, sy; reflexivity).
  destruct sx, sy; try reflexivity;
    rewrite (Z.compare_antisym ex ey);
    destruct (Z.compare ex ey); simpl; try reflexivity;
    by rewrite (Pos.compare_cont_antisym mx my Eq).
Qed.

Lemma SFcompare_total (x y : float) :
  PyFloat.is_nan x = false -> PyFloat.is_nan y = false ->
  exists c, SFcompare x y = Some c.
Proof. destruct x, y; simpl; intros; try discriminate; eauto. Qed.

Lemma float_le_not_lt (x y : float) :
  PyFloat.is_nan x = false -> PyFloat.is_nan y = false ->
  PyFloat.le x y = negb (PyFloat.lt y x).
Proof.
  intros Hx Hy. unfold PyFloat.le, PyFloat.lt, SFleb, SFltb.
  rewrite (SFcompare_antisym x y).
  destruct (SFcompare_total x y Hx Hy) as [c ->]. by destruct c.
Qed.

Lemma float_le_not_gt (x y : float) :
  PyFloat.is_nan x = false -> PyFloat.is_nan y = false ->
  PyFloat.le x y = negb (PyFloat.gt x y).
Proof.
  intros Hx Hy. unfold PyFloat.le, PyFloat.gt, SFleb.
  destruct (SFcompare_total x y Hx Hy) as [c ->]. by destruct c.
Qed.

(** An amount that is not above zero is below the minimum as well. *)
Lemma not_positive_below_minimum (amount : float) :
  PyFloat.le amount (PyFloat.lit 0) = true ->
  PyFloat.lt amount (PyFloat.lit 1000) = true.
Proof.
  change (PyFloat.lit 0) with (S754_zero false).
  change (PyFloat.lit 1000) with (S754_finite false 8796093022208000 (-43)).
  destruct amount as [s|s| |s m e]; try destruct s; simpl; intros H;
    try discriminate; reflexivity.
Qed.

(** The checks of [deposit] on a parsed amount. *)
Lemma deposit_checks (py_float : string -> option float) (token : option string)
  (now : Z) (ok : bool) (uid : Z) (arg : string) (rest : list string)
  (amount : float) :
  token_missing token = false ->
  PyStr.isdigit (PyStr.remove_dots arg) = true ->
  py_float arg = Some amount ->
  deposit py_float token now ok uid (arg :: rest)
  = if PyFloat.le amount (PyFloat.lit 0) then DepositNotPositive
    else if PyFloat.lt amount (PyFloat.lit 1000) then DepositBelowMinimum
    else if PyFloat.gt amount (PyFloat.lit 10000000) then DepositAboveMaximum
    else issue_invoice now ok uid amount.
Proof. intros Ht Hd Hp. unfold deposit. by rewrite Ht, Hd, Hp. Qed.

Lemma issue_invoice_not_refusal (now : Z) (ok : bool) (uid : Z) (amount : float) :
  is_invalid_amount (issue_invoice now ok uid amount) = false.
Proof.
  unfold issue_invoice. destruct (amount_in_tiyin amount) as [[]|]; try done.
  by destruct ok.
Qed.

(** Bounds on what [binary_round_aux] returns. *)

Lemma digits2_pos_bounds (p : positive) :
  2 ^ (Zpos (digits2_pos p) - 1) <= Zpos p < 2 ^ Zpos (digits2_pos p).
Proof.
  induction p as [p IH|p IH|]; cbn [digits2_pos].
  - rewrite Pos2Z.inj_succ, Z.pow_succ_r by lia.
    replace (Z.succ (Zpos (digits2_pos p)) - 1) with (Z.succ (Zpos (digits2_pos p) - 1)) by lia.
    rewrite Z.pow_succ_r by lia. lia.
  - rewrite Pos2Z.inj_succ, Z.pow_succ_r by lia.
    replace (Z.succ (Zpos (digits2_pos p)) - 1) with (Z.succ (Zpos (digits2_pos p) - 1)) by lia.
    rewrite Z.pow_succ_r by lia. lia.
  - simpl. lia.
Qed.

Lemma Zdigits2_le (x n : Z) :
  0 <= n -> 0 <= x < 2 ^ n -> Zdigits2 x <= n.
Proof.
  intros Hn [H0 Hx]. destruct x as [|p|p]; simpl; [lia| |lia].
  destruct (Z_le_gt_dec (Zpos (digits2_pos p)) n) as [|Hgt]; [done|] .
  pose proof (digits2_pos_bounds p) as [Hlo _].
  assert (2 ^ n <= 2 ^ (Zpos (digits2_pos p) - 1)) by (apply Z.pow_le_mono_r; lia).
  lia.
Qed.

Lemma shr_1_bounds (mrs : shr_record) :
  0 <= shr_m mrs -> 0 <= shr_m (shr_1 mrs) <= shr_m mrs.
Proof.
  destruct mrs as [m r s]. simpl. destruct m as [|p|p]; simpl; try lia.
  destruct p; simpl; lia.
Qed.

Lemma iter_shr_1_bounds (p : positive) :
  forall mrs, 0 <= shr_m mrs -> 0 <= shr_m (SpecFloat.iter_pos shr_1 p mrs) <= shr_m mrs.
Proof.
  induction p as [p IH|p IH|]; intros mrs H; simpl.
  - pose proof (shr_1_bounds mrs H). pose proof (IH (shr_1 mrs) ltac:(lia)).
    pose proof (IH (SpecFloat.iter_pos shr_1 p (shr_1 mrs)) ltac:(lia)). lia.
  - pose proof (IH mrs H). pose proof (IH (SpecFloat.iter_pos shr_1 p mrs) ltac:(lia)). lia.
  - by apply shr_1_bounds.
Qed.

Lemma shr_bounds (mrs : shr_record) (e n : Z) :
  0 <= shr_m mrs ->
  0 <= shr_m (shr mrs e n).1 <= shr_m mrs
  /\ (shr mrs e n).2 <= Z.max e (e + n).
Proof.
  intros H. unfold shr. destruct n as [|p|p]; cbn [fst snd]; try lia.
  split; [by apply iter_shr_1_bounds | lia].
Qed.

Lemma shr_m_of_loc (m : Z) (l : location) : shr_m (shr_record_of_loc m l) = m.
Proof. by destruct l as [|[]]. Qed.

Lemma shr_fexp_bounds (m e : Z) (l : location) (n : Z) :
  0 <= n -> 0 <= m < 2 ^ n ->
  0 <= shr_m (shr_fexp 53 1024 m e l).1 <= m
  /\ (shr_fexp 53 1024 m e l).2 <= Z.max e (Z.max (n + e - 53) (-1074)).
Proof.
  intros Hn Hm. unfold shr_fexp.
  pose proof (shr_bounds (shr_record_of_loc m l) e
                (fexp 53 1024 (Zdigits2 m + e) - e)) as H.
  rewrite shr_m_of_loc in H. destruct (H ltac:(lia)) as [H1 H2].
  split; [exact H1|].
  pose proof (Zdigits2_le m n Hn Hm) as Hd.
  etrans; [exact H2|]. unfold fexp, emin. lia.
Qed.

Lemma round_nearest_even_bounds (m : Z) (l : location) :
  0 <= m -> 0 <= round_nearest_even m l <= m + 1.
Proof.
  intros H. unfold round_nearest_even. destruct l as [|[]]; try lia.
  destruct (Z.even m); lia.
Qed.

(** Rounding a non-negative mantissa below [2^106] with an exponent of at
    most [-75] gives zero or a finite float, which [int] accepts. *)
Lemma binary_round_aux_to_int (m e : Z) (l : location) :
  0 <= m < 2 ^ 106 -> e <= -75 ->
  exists z, PyFloat.to_int (binary_round_aux 53 1024 false m e l) = inr z.
Proof.
  intros Hm He. unfold binary_round_aux.
  pose proof (shr_fexp_bounds m e l 106 ltac:(lia) Hm) as [H1 H2].
  destruct (shr_fexp 53 1024 m e l) as [mrs' e'] eqn:E1. cbn [fst snd] in H1, H2.
  pose proof (round_nearest_even_bounds (shr_m mrs') (loc_of_shr_record mrs')
                ltac:(lia)) as H3.
  set (m2 := round_nearest_even (shr_m mrs') (loc_of_shr_record mrs')) in *.
  assert (0 <= m2 < 2 ^ 107) as Hm2.
  { change (2 ^ 107) with (2 * 2 ^ 106). lia. }
  pose proof (shr_fexp_bounds m2 e' loc_Exact 107 ltac:(lia) Hm2) as [H4 H5].
  destruct (shr_fexp 53 1024 m2 e' loc_Exact) as [mrs'' e''] eqn:E2.
  cbn [fst snd] in H4, H5.
  destruct (shr_m mrs'') as [|p|p] eqn:Em; [by eexists| |lia].
  assert ((e'' <=? 1024 - 53) = true) as -> by (apply Z.leb_le; lia).
  by eexists.
Qed.

(** Inside the bounds the conversion to tiyin cannot fail. *)
Lemma amount_in_tiyin_in_bounds (amount : float) :
  valid_binary 53 1024 amount = true ->
  in_bounds amount = true ->
  exists tiyin, amount_in_tiyin amount = inr tiyin.
Proof.
  unfold in_bounds. intros Hv [Hlo Hhi]%andb_true_iff.
  revert Hlo Hhi.
  change (PyFloat.lit 1000) with (S754_finite false 8796093022208000 (-43)).
  change (PyFloat.lit 10000000) with (S754_finite false 5368709120000000 (-29)).
  destruct amount as [s|s| |s m e]; try destruct s; try discriminate.
  unfold PyFloat.le, SFleb. cbn [SFcompare]. intros _ Hhi.
  assert (e <= -29) as He.
  { destruct (Z.compare_spec e (-29)); first [lia | discriminate]. }
  cbn [valid_binary] in Hv. unfold bounded, canonical_mantissa in Hv.
  apply andb_true_iff in Hv as [Hc _]. apply Z.eqb_eq in Hc.
  unfold fexp, emin in Hc.
  pose proof (digits2_pos_bounds m) as [_ Hm].
  assert (Zpos m < 2 ^ 53) as Hm53.
  { eapply Z.lt_le_trans; [exact Hm|]. apply Z.pow_le_mono_r; lia. }
  unfold amount_in_tiyin, PyFloat.mul.
  change (PyFloat.lit 100) with (S754_finite false 7036874417766400 (-46)).
  cbn [SFmul xorb].
  apply binary_round_aux_to_int; [|lia].
  rewrite Pos2Z.inj_mul. change (2 ^ 106) with (2 ^ 53 * 2 ^ 53).
  split; [lia|]. apply Z.mul_lt_mono_nonneg; lia.
Qed.

(** C6. With the provider token set, an argument made of digits and points
    that [float()] reads as [amount] (a number, not a NaN): [deposit] goes on
    to issue the invoice exactly when [1000 <= amount <= 10000000], and
    otherwise refuses the amount (not positive, below the minimum, above the
    maximum).  For a binary64 amount inside the bounds the conversion to
    tiyin cannot fail, so the invoice is sent.  999 is refused as below the
    minimum, 1000 and 10000000 get an invoice of 100000 and 1000000000 tiyin
    (when [send_invoice] returns), and 10000001 is refused as above the
    maximum. *)
Theorem deposit_accepts_closed_interval (py_float : string -> option float)
  (token : option string) (now : Z) (ok : bool) (uid : Z) (arg : string)
  (rest : list string) (amount : float) :
  token_missing token = false ->
  PyStr.isdigit (PyStr.remove_dots arg) = true ->
  py_float arg = Some amount ->
  PyFloat.is_nan amount = false ->
  let r := deposit py_float token now ok uid (arg :: rest) in
  (in_bounds amount = true -> r = issue_invoice now ok uid amount)
  /\ (in_bounds amount = true -> valid_binary 53 1024 amount = true ->
      exists tiyin,
        amount_in_tiyin amount = inr tiyin
        /\ r = if ok then DepositInvoice (invoice_payload uid now) tiyin
               else DepositError)
  /\ (in_bounds amount = false -> is_invalid_amount r = true)
  /\ is_invalid_amount r = negb (in_bounds amount)
  /\ (amount = PyFloat.lit 999 -> r = DepositBelowMinimum)
  /\ (amount = PyFloat.lit 1000 ->
      r = if ok then DepositInvoice (invoice_payload uid now) 100000 else DepositError)
  /\ (amount = PyFloat.lit 10000000 ->
      r = if ok then DepositInvoice (invoice_payload uid now) 1000000000
          else DepositError)
  /\ (amount = PyFloat.lit 10000001 -> r = DepositAboveMaximum).
Proof.
  intros Ht Hd Hp Hnan r. subst r.
  rewrite (deposit_checks py_float token now ok uid arg rest amount Ht Hd Hp).
  assert (in_bounds amount
          = negb (PyFloat.lt amount (PyFloat.lit 1000))
            && negb (PyFloat.gt amount (PyFloat.lit 10000000))) as Hb.
  { unfold in_bounds.
    rewrite (float_le_not_lt (PyFloat.lit 1000) amount) by done.
    by rewrite (float_le_not_gt amount (PyFloat.lit 10000000)) by done. }
  assert ((if PyFloat.le amount (PyFloat.lit 0) then DepositNotPositive
           else if PyFloat.lt amount (PyFloat.lit 1000) then DepositBelowMinimum
           else if PyFloat.gt amount (PyFloat.lit 10000000) then DepositAboveMaximum
           else issue_invoice now ok uid amount)
          = if in_bounds amount then issue_invoice now ok uid amount
            else if PyFloat.le amount (PyFloat.lit 0) then DepositNotPositive
            else if PyFloat.lt amount (PyFloat.lit 1000) then DepositBelowMinimum
            else DepositAboveMaximum) as ->.
  { rewrite Hb. destruct (PyFloat.le amount (PyFloat.lit 0)) eqn:H0.
    - by rewrite (not_positive_below_minimum _ H0).
    - destruct (PyFloat.lt amount (PyFloat.lit 1000)); [done|].
      by destruct (PyFloat.gt amount (PyFloat.lit 10000000)). }
  split; [by intros ->|]. split.
  { intros Hin Hv. destruct (amount_in_tiyin_in_bounds amount Hv Hin) as [tiyin E].
    exists tiyin. split; [exact E|]. rewrite Hin. unfold issue_invoice.
    by rewrite E. }
  split.
  { intros ->. destruct (PyFloat.le amount (PyFloat.lit 0)); [done|].
    by destruct (PyFloat.lt amount (PyFloat.lit 1000)). }
  split.
  { destruct (in_bounds amount); cbn [negb].
    - apply issue_invoice_not_refusal.
    - destruct (PyFloat.le amount (PyFloat.lit 0)); [done|].
      by destruct (PyFloat.lt amount (PyFloat.lit 1000)). }
  repeat split; intros ->.
  - reflexivity.
  - change (in_bounds (PyFloat.lit 1000)) with true. cbn iota.
    unfold issue_invoice.
    by change (amount_in_tiyin (PyFloat.lit 1000)) with (@inr PyFloat.exn Z 100000).
  - change (in_bounds (PyFloat.lit 10000000)) with true. cbn iota.
    unfold issue_invoice.
    by change (amount_in_tiyin (PyFloat.lit 10000000))
      with (@inr PyFloat.exn Z 1000000000).
  - reflexivity.
Qed.

Lemma deposit_accepts_closed_interval_witness :
  PyStr.decimal_float "1000" = Some (PyFloat.lit 1000)
  /\ deposit PyStr.decimal_float (Some "provider-token"%string) 1700000000 true 7
       ["1000"]%string
     = DepositInvoice "deposit_7_1700000000" 100000.
Proof.
  split; [vm_compute; reflexivity|].
  apply (deposit_accepts_closed_interval PyStr.decimal_float
           (Some "provider-token"%string) 1700000000 true 7 "1000" []
           (PyFloat.lit 1000));
    vm_compute; reflexivity.
Defined.

(** ** Minor units *)

(** C7 fails on the code. [/deposit 1024.09] passes the checks, and
    [int(amount * 100)] is 102408, not 102409: the product of the float
    1024.09 by 100 is the float just below 102409 and [int] truncates.  A
    payment of these 102408 tiyin credits 1024.08, which is not the amount
    asked for.  The two instances named in the claim do hold for the two
    conversions taken alone: [int(123.45 * 100)] is 12345 and [12345 / 100.0]
    is the float 123.45, credited as such to an empty balance; [deposit]
    itself refuses 123.45 as below the minimum. *)
Theorem deposit_truncation_loses_a_tiyin :
  PyStr.decimal_float "1024.09" = Some (PyFloat.dec 102409 2)
  /\ PyFloat.dec 102409 2 = S754_finite false 4503995451556495 (-42)
  /\ (forall uid now,
        deposit PyStr.decimal_float (Some "provider-token"%string) now true uid
          ["1024.09"]%string
        = DepositInvoice (invoice_payload uid now) 102408)
  /\ (forall payload uid,
        (successful_payment_handler (Some (SuccessfulPayment payload 102408)) uid
           empty_store).1
        = PaymentCredited (PyFloat.dec 102408 2) (PyFloat.dec 102408 2))
  /\ PyFloat.eq (PyFloat.dec 102408 2) (PyFloat.dec 102409 2) = false
  /\ amount_in_tiyin (PyFloat.dec 12345 2) = inr 12345
  /\ PyFloat.dec 12345 2 = S754_finite false 8687021468732621 (-46)
  /\ (forall payload uid,
        (successful_payment_handler (Some (SuccessfulPayment payload 12345)) uid
           empty_store).1
        = PaymentCredited (PyFloat.dec 12345 2) (PyFloat.dec 12345 2))
  /\ (forall uid now,
        deposit PyStr.decimal_float (Some "provider-token"%string) now true uid
          ["123.45"]%string
        = DepositBelowMinimum).
Proof.
  split; [vm_compute; reflexivity|]. split; [vm_compute; reflexivity|].
  split.
  { intros uid now.
    rewrite (deposit_checks PyStr.decimal_float _ now true uid "1024.09" []
               (PyFloat.dec 102409 2)) by (vm_compute; reflexivity).
    change (PyFloat.dec 102409 2) with (S754_finite false 4503995451556495 (-42)).
    reflexivity. }
  split.
  { intros payload uid.
    assert (PyFloat.of_int 102408 = inr (PyFloat.lit 102408)) as E
      by (vm_compute; reflexivity).
    unfold successful_payment_handler. cbn [total_amount]. rewrite E.
    cbn [fst]. rewrite ensure_key_lookup. cbn [user_balance empty_store].
    rewrite lookup_empty. f_equal; vm_compute; reflexivity. }
  split; [vm_compute; reflexivity|]. split; [vm_compute; reflexivity|].
  split; [vm_compute; reflexivity|]. split.
  { intros payload uid.
    assert (PyFloat.of_int 12345 = inr (PyFloat.lit 12345)) as E
      by (vm_compute; reflexivity).
    unfold successful_payment_handler. cbn [total_amount]. rewrite E.
    cbn [fst]. rewrite ensure_key_lookup. cbn [user_balance empty_store].
    rewrite lookup_empty. f_equal; vm_compute; reflexivity. }
  intros uid now.
  rewrite (deposit_checks PyStr.decimal_float _ now true uid "123.45" []
             (PyFloat.dec 12345 2)) by (vm_compute; reflexivity).
  change (PyFloat.dec 12345 2) with (S754_finite false 8687021468732621 (-46)).
  reflexivity.
Qed.

(** ** Payment completion *)

Lemma balance_insert (uid : Z) (st : store) (x : float) (m : gmap Z float) :
  balance uid (with_balance st (<[uid := x]> m)) = x.
Proof.
  unfold balance. cbn [user_balance with_balance]. by rewrite lookup_insert_eq.
Qed.

(** C10. [successful_payment_handler] never reads the payload: for every
    payload, a confirmation of [total] minor units (with [float(total)]
    defined) sets the balance of the paying user to his former balance, zero
    if he had none, plus [total / 100.0], and touches no other balance; the
    result is the same as for any other payload, in particular for one that
    [pre_checkout_handler] turns down because it does not start with
    ['deposit_']. *)
Theorem successful_payment_credits_any_payload (payload : string) (total : Z)
  (uid : Z) (st : store) (f : float) :
  PyFloat.of_int total = inr f ->
  let amount := PyFloat.div f (PyFloat.lit 100) in
  let r := successful_payment_handler (Some (SuccessfulPayment payload total)) uid st in
  r.1 = PaymentCredited amount (PyFloat.add (balance uid st) amount)
  /\ balance uid r.2 = PyFloat.add (balance uid st) amount
  /\ (forall u, u <> uid -> user_balance r.2 !! u = user_balance st !! u)
  /\ (forall payload',
        successful_payment_handler (Some (SuccessfulPayment payload' total)) uid st = r)
  /\ (PyStr.startswith payload "deposit_" = false ->
      forall answer_ok, pre_checkout_handler payload answer_ok = PreCheckoutWrongType).
Proof.
  intros Hf amount r. subst r. unfold successful_payment_handler.
  cbn [total_amount]. rewrite Hf. cbn [fst snd].
  rewrite ensure_key_lookup, insert_ensure_key. fold (balance uid st). fold amount.
  split; [done|]. split; [apply balance_insert|]. split; [|split].
  - intros u Hu. cbn [user_balance with_balance]. by rewrite lookup_insert_ne.
  - done.
  - intros Hp ok. unfold pre_checkout_handler. by rewrite Hp.
Qed.

Lemma successful_payment_credits_any_payload_witness :
  PyFloat.of_int 12345 = inr (PyFloat.lit 12345)
  /\ pre_checkout_handler "gift_1" true = PreCheckoutWrongType
  /\ balance 7 empty_store = S754_zero false
  /\ balance 7 (successful_payment_handler
                  (Some (SuccessfulPayment "gift_1" 12345)) 7 empty_store).2
     = S754_finite false 8687021468732621 (-46).
Proof.
  split; [vm_compute; reflexivity|].
  destruct (successful_payment_credits_any_payload "gift_1" 12345 7 empty_store
              (PyFloat.lit 12345) ltac:(vm_compute; reflexivity))
    as (_ & Hb & _ & _ & Hpre).
  split; [apply Hpre; vm_compute; reflexivity|].
  split; [reflexivity|].
  rewrite Hb. vm_compute. reflexivity.
Defined.

(** * Further properties of the handlers *)

(** ** Asset names *)

Lemma lower_ascii_idemp (c : ascii) :
  PyStr.lower_ascii (PyStr.lower_ascii c) = PyStr.lower_ascii c.
Proof. destruct c as [[] [] [] [] [] [] [] []]; reflexivity. Qed.

Lemma lower_idemp (s : string) : PyStr.lower (PyStr.lower s) = PyStr.lower s.
Proof.
  induction s as [|c s IH]; simpl; [done|]. by rewrite lower_ascii_idemp, IH.
Qed.

Lemma find_in_table_name (x cid : string) (table : list (string * string)) :
  find_in_table x table = Some cid -> cid ∈ table.*1.
Proof.
  induction table as [|[c code] table IH]; simpl; [done|].
  destruct (String.eqb x c || String.eqb x (PyStr.lower code)).
  - intros [= ->]. apply list_elem_of_here.
  - intros H. apply list_elem_of_further. by apply IH.
Qed.

(** X1. [find_crypto_id] does not depend on the case of its argument, its
    result is in lower case and is a fixed point, every name and every code
    of [CRYPTO_IDS] resolves to the name, and a string that is neither comes
    back in lower case. *)
Theorem find_crypto_id_canonical (x : string) :
  find_crypto_id (PyStr.lower x) = find_crypto_id x
  /\ PyStr.lower (find_crypto_id x) = find_crypto_id x
  /\ find_crypto_id (find_crypto_id x) = find_crypto_id x
  /\ (forall cid code, (cid, code) ∈ CRYPTO_IDS ->
        find_crypto_id cid = cid /\ find_crypto_id code = cid)
  /\ (find_in_table (PyStr.lower x) CRYPTO_IDS = None ->
      find_crypto_id x = PyStr.lower x).
Proof.
  assert (Forall (fun '(cid, code) =>
                    find_crypto_id cid = cid /\ find_crypto_id code = cid
                    /\ PyStr.lower cid = cid) CRYPTO_IDS) as Htable.
  { repeat constructor. }
  rewrite Forall_forall in Htable.
  assert (forall cid, cid ∈ CRYPTO_IDS.*1 ->
            find_crypto_id cid = cid /\ PyStr.lower cid = cid) as Hname.
  { intros cid ([c code] & -> & Hin)%list_elem_of_fmap.
    specialize (Htable _ Hin). simpl in *. tauto. }
  assert (forall y, find_crypto_id y
                    = default (PyStr.lower y)
                        (find_in_table (PyStr.lower y) CRYPTO_IDS)) as Hdef by done.
  assert (forall c code, (c, code) ∈ CRYPTO_IDS ->
            find_crypto_id c = c /\ find_crypto_id code = c) as Hpair.
  { intros c code Hin. specialize (Htable _ Hin). simpl in Htable. tauto. }
  split; [by rewrite (Hdef (PyStr.lower x)), lower_idemp, <- Hdef|].
  rewrite (Hdef x).
  destruct (find_in_table (PyStr.lower x) CRYPTO_IDS) as [cid|] eqn:E; simpl.
  - apply find_in_table_name in E. destruct (Hname cid E) as [H1 H2]. done.
  - split; [apply lower_idemp|]. split; [|done].
    by rewrite (Hdef (PyStr.lower x)), lower_idemp, E.
Qed.

(** ** What each handler leaves alone *)

Lemma add_to_portfolio_frame (py_float : string -> option float)
  (api : string -> price_data) (u : Z) (args : list string) (st : store) :
  let st' := (add_to_portfolio py_float api u args st).2 in
  user_alerts st' = user_alerts st
  /\ user_favorites st' = user_favorites st
  /\ user_balance st' = user_balance st.
Proof. unfold add_to_portfolio. by repeat case_match. Qed.

Lemma remove_from_portfolio_frame (u : Z) (args : list string) (st : store) :
  let st' := (remove_from_portfolio u args st).2 in
  user_alerts st' = user_alerts st
  /\ user_favorites st' = user_favorites st
  /\ user_balance st' = user_balance st.
Proof. unfold remove_from_portfolio. by repeat case_match. Qed.

Lemma add_favorite_frame (api : string -> price_data) (u : Z)
  (args : list string) (st : store) :
  let st' := (add_favorite api u args st).2 in
  user_alerts st' = user_alerts st
  /\ user_portfolio st' = user_portfolio st
  /\ user_balance st' = user_balance st.
Proof. unfold add_favorite. by repeat case_match. Qed.

Lemma remove_favorite_frame (u : Z) (args : list string) (st : store) :
  let st' := (remove_favorite u args st).2 in
  user_alerts st' = user_alerts st
  /\ user_portfolio st' = user_portfolio st
  /\ user_balance st' = user_balance st.
Proof. unfold remove_favorite. by repeat case_match. Qed.

Lemma create_alert_frame (py_float : string -> option float)
  (api : string -> price_data) (u : Z) (args : list string) (st : store) :
  let st' := (create_alert py_float api u args st).2 in
  user_portfolio st' = user_portfolio st
  /\ user_favorites st' = user_favorites st
  /\ user_balance st' = user_balance st.
Proof. unfold create_alert. by repeat case_match. Qed.

Lemma delete_alert_frame (u : Z) (args : list string) (st : store) :
  let st' := (delete_alert u args st).2 in
  user_portfolio st' = user_portfolio st
  /\ user_favorites st' = user_favorites st
  /\ user_balance st' = user_balance st.
Proof. unfold delete_alert. by repeat case_match. Qed.

Lemma check_alerts_frame (w : world) (st : store) :
  let st' := (check_alerts w st).1 in
  user_portfolio st' = user_portfolio st
  /\ user_favorites st' = user_favorites st
  /\ user_balance st' = user_balance st.
Proof. done. Qed.

Lemma successful_payment_frame (payment : option successful_payment) (u : Z)
  (st : store) :
  let st' := (successful_payment_handler payment u st).2 in
  user_alerts st' = user_alerts st
  /\ user_portfolio st' = user_portfolio st
  /\ user_favorites st' = user_favorites st.
Proof. unfold successful_payment_handler. by repeat case_match. Qed.

(** X2. Only a confirmed payment changes a balance: every other update of
    the store (the six commands that write and the alert job) leaves
    [user_balance] as it is, so between two payments every balance stays
    what it was. *)
Theorem balance_changes_only_by_payment (acts : list action) (st : store) :
  forallb (fun act => negb (is_payment act)) acts = true ->
  user_balance (foldl step st acts) = user_balance st.
Proof.
  revert st. induction acts as [|act acts IH]; intros st H; simpl; [done|].
  simpl in H. apply andb_true_iff in H as [Hact H]. rewrite (IH _ H).
  destruct act; simpl in Hact |- *; try discriminate.
  - apply add_to_portfolio_frame.
  - apply remove_from_portfolio_frame.
  - apply add_favorite_frame.
  - apply remove_favorite_frame.
  - apply create_alert_frame.
  - apply delete_alert_frame.
  - reflexivity.
Qed.

Lemma balance_changes_only_by_payment_witness :
  forallb (fun act => negb (is_payment act))
    [DoPayment (Some (SuccessfulPayment "deposit_7_1" 12345)) 7] = false
  /\ user_balance
       (foldl step
          (step empty_store (DoPayment (Some (SuccessfulPayment "deposit_7_1" 12345)) 7))
          [DoAdd PyStr.decimal_float api_all_48000 7 ["btc"; "2"]%string;
           DoCheckAlerts world_first_send_fails;
           DoUnfav 7 ["btc"]%string]) !! 7
     = Some (S754_finite false 8687021468732621 (-46)).
Proof.
  split; [reflexivity|].
  rewrite (balance_changes_only_by_payment
             [DoAdd PyStr.decimal_float api_all_48000 7 ["btc"; "2"]%string;
              DoCheckAlerts world_first_send_fails;
              DoUnfav 7 ["btc"]%string]
             (step empty_store
                (DoPayment (Some (SuccessfulPayment "deposit_7_1" 12345)) 7))
             eq_refl).
  vm_compute. reflexivity.
Defined.

(** ** Removing from the portfolio *)

Lemma with_portfolio_same (st : store) : with_portfolio st (user_portfolio st) = st.
Proof. by destruct st. Qed.

(** X3. [/remove]: when the user does not hold the asset (no portfolio, or no
    entry for it) the answer is "not found" and the store is unchanged; when
    he holds it, with whatever quantity, the whole entry goes away, his other
    assets keep their quantities and the other users are untouched. *)
Theorem remove_from_portfolio_entry (uid : Z) (c : string) (rest : list string)
  (st : store) :
  let cid := find_crypto_id (PyStr.lower c) in
  let r := remove_from_portfolio uid (c :: rest) st in
  (holding uid cid st = None -> r = (RemoveNotFound, st))
  /\ (forall q, holding uid cid st = Some q ->
        r.1 = RemoveDone
        /\ holding uid cid r.2 = None
        /\ (forall c', c' <> cid -> holding uid c' r.2 = holding uid c' st)
        /\ (forall u, u <> uid -> user_portfolio r.2 !! u = user_portfolio st !! u)).
Proof.
  intros cid r. subst r. unfold remove_from_portfolio, holding. fold cid.
  destruct (user_portfolio st !! uid) as [h|] eqn:Eu; simpl; [|by split].
  destruct (h !! cid) as [q0|] eqn:Ec; simpl; [|by split].
  split; [done|]. intros q _. split; [done|].
  cbn [user_portfolio with_portfolio].
  destruct (bool_decide (delete cid h = ∅)) eqn:Hd.
  - apply bool_decide_eq_true in Hd. rewrite lookup_delete_eq. simpl.
    split; [done|]. split.
    + intros c' Hc'. simpl.
      rewrite <- (lookup_delete_ne h cid c') by done. by rewrite Hd, lookup_empty.
    + intros u Hu. by rewrite lookup_delete_ne.
  - rewrite lookup_insert_eq. simpl. rewrite lookup_delete_eq.
    split; [done|]. split.
    + intros c' Hc'. simpl. by rewrite lookup_delete_ne.
    + intros u Hu. by rewrite lookup_insert_ne.
Qed.

(** X4. Adding an asset that the user did not hold and removing it again
    gives back the store as it was, user key included, provided the user was
    not mapped to an empty portfolio (which no command produces). *)
Theorem add_then_remove_restores (py_float : string -> option float)
  (api : string -> price_data) (uid : Z) (c q : string) (rest rest' : list string)
  (st : store) (amount : float) :
  let cid := find_crypto_id (PyStr.lower c) in
  py_float q = Some amount ->
  has_price (api cid) cid = true ->
  holding uid cid st = None ->
  user_portfolio st !! uid <> Some ∅ ->
  remove_from_portfolio uid (c :: rest')
    (add_to_portfolio py_float api uid (c :: q :: rest) st).2
  = (RemoveDone, st).
Proof.
  intros cid Hq Hc Hh Hne.
  rewrite (add_to_portfolio_known py_float api uid c q rest st amount Hq Hc).
  fold cid. cbn [snd]. unfold remove_from_portfolio. fold cid.
  cbn [user_portfolio with_portfolio]. rewrite lookup_insert_eq.
  set (h := default ∅ (user_portfolio st !! uid)).
  assert (h !! cid = None) as Hcid.
  { unfold holding in Hh. unfold h.
    destruct (user_portfolio st !! uid); simpl in *; [done | apply lookup_empty]. }
  rewrite Hcid, lookup_insert_eq, delete_insert_eq, (delete_id h cid Hcid).
  set (m1 := <[uid := <[cid := amount]> h]> (user_portfolio st)).
  assert ((if bool_decide (h = ∅) then delete uid m1 else <[uid := h]> m1)
          = user_portfolio st) as ->.
  { subst m1 h. destruct (user_portfolio st !! uid) as [h0|] eqn:Eu; simpl.
    - rewrite bool_decide_eq_false_2 by congruence.
      rewrite insert_insert_eq. by apply insert_id.
    - rewrite bool_decide_eq_true_2 by done.
      rewrite delete_insert_eq. by apply delete_id. }
  f_equal. by destruct st.
Qed.

Lemma add_then_remove_restores_witness :
  holding 7 "bitcoin" store_tenth_bitcoin = Some (PyFloat.dec 1 1)
  /\ holding 7 "ethereum" store_tenth_bitcoin = None
  /\ remove_from_portfolio 7 ["ETH"]%string
       (add_to_portfolio PyStr.decimal_float api_all_48000 7 ["ETH"; "2.5"]%string
          store_tenth_bitcoin).2
     = (RemoveDone, store_tenth_bitcoin).
Proof.
  split; [vm_compute; reflexivity|]. split; [vm_compute; reflexivity|].
  apply (add_then_remove_restores PyStr.decimal_float api_all_48000 7 "ETH" "2.5"
           [] [] store_tenth_bitcoin (PyFloat.dec 25 1)).
  - vm_compute; reflexivity.
  - vm_compute; reflexivity.
  - vm_compute; reflexivity.
  - vm_compute. discriminate.
Defined.

(** ** Removing a favorite *)

Lemma str_remove_sublist (x : string) (l : list string) : sublist (str_remove x l) l.
Proof.
  induction l as [|y l IH]; simpl; [constructor|].
  destruct (String.eqb y x); [by apply sublist_cons | by apply sublist_skip].
Qed.

Lemma str_remove_NoDup (x : string) (l : list string) :
  NoDup l -> NoDup (str_remove x l).
Proof. eauto using sublist_NoDup, str_remove_sublist. Qed.

Lemma elem_of_str_remove_ne (x y : string) (l : list string) :
  y <> x -> y ∈ str_remove x l <-> y ∈ l.
Proof.
  intros Hne. induction l as [|z l IH]; simpl; [done|].
  destruct (String.eqb_spec z x) as [->|Hz].
  - rewrite elem_of_cons. split; [by right | by intros [?|?]].
  - rewrite !elem_of_cons, IH. done.
Qed.

Lemma str_remove_gone (x : string) (l : list string) :
  NoDup l -> x ∉ str_remove x l.
Proof.
  induction 1 as [|z l Hz Hnd IH]; simpl; [by apply not_elem_of_nil|].
  destruct (String.eqb_spec z x) as [->|Hne]; [done|].
  apply not_elem_of_cons. split; [congruence | done].
Qed.

Lemma str_remove_snoc (x : string) (l : list string) :
  x ∉ l -> str_remove x (l ++ [x]) = l.
Proof.
  induction l as [|z l IH]; simpl; intros H.
  - by rewrite String.eqb_refl.
  - apply not_elem_of_cons in H as [Hne H].
    destruct (String.eqb_spec z x); [congruence|]. by rewrite IH.
Qed.

Lemma favorites_of_delete (uid : Z) (st : store) (m : gmap Z (list string)) :
  favorites_of uid (with_favorites st (delete uid m)) = [].
Proof.
  unfold favorites_of. cbn [user_favorites with_favorites].
  by rewrite lookup_delete_eq.
Qed.

(** X5. [/unfav]: when the asset is not among the user's favorites (or he has
    none) the answer is "not found" and the store is unchanged; otherwise its
    first occurrence is taken out and the rest keeps its order, the other
    users are untouched, and in a list without repetitions the asset is gone
    while every other favorite stays. *)
Theorem remove_favorite_entry (uid : Z) (c : string) (rest : list string)
  (st : store) :
  let cid := find_crypto_id (PyStr.lower c) in
  let r := remove_favorite uid (c :: rest) st in
  (cid ∉ favorites_of uid st -> r = (RemoveNotFound, st))
  /\ (cid ∈ favorites_of uid st ->
      r.1 = RemoveDone
      /\ favorites_of uid r.2 = str_remove cid (favorites_of uid st)
      /\ sublist (favorites_of uid r.2) (favorites_of uid st)
      /\ (forall u, u <> uid -> user_favorites r.2 !! u = user_favorites st !! u)
      /\ (NoDup (favorites_of uid st) ->
          (cid ∉ favorites_of uid r.2)
          /\ (forall x, x <> cid ->
                x ∈ favorites_of uid r.2 <-> x ∈ favorites_of uid st))).
Proof.
  intros cid r. subst r. unfold remove_favorite. fold cid.
  assert (favorites_of uid st = default [] (user_favorites st !! uid)) as -> by done.
  destruct (user_favorites st !! uid) as [favs|] eqn:Eu; simpl.
  2:{ split; [done|]. intros H. by apply elem_of_nil in H. }
  destruct (str_in cid favs) eqn:Hin; simpl.
  2:{ split; [done|]. intros H%str_in_spec. congruence. }
  split; [intros H; by apply str_in_spec in Hin|]. intros _.
  assert (favorites_of uid
            (with_favorites st
               match str_remove cid favs with
               | [] => delete uid (user_favorites st)
               | _ :: _ => <[uid := str_remove cid favs]> (user_favorites st)
               end) = str_remove cid favs) as E.
  { destruct (str_remove cid favs) eqn:Er.
    - apply favorites_of_delete.
    - apply favorites_of_insert. }
  split; [done|]. rewrite E.
  split; [done|]. split; [apply str_remove_sublist|]. split.
  - intros u Hu. cbn [user_favorites with_favorites].
    destruct (str_remove cid favs);
      [by rewrite lookup_delete_ne | by rewrite lookup_insert_ne].
  - intros Hnd. split; [by apply str_remove_gone|].
    intros x Hx. by apply elem_of_str_remove_ne.
Qed.

(** X6. Adding a favorite that was not there and removing it again gives
    back the store as it was, user key included, provided the user was not
    mapped to an empty list (which no command produces). *)
Theorem fav_then_unfav_restores (api : string -> price_data) (uid : Z)
  (c : string) (rest rest' : list string) (st : store) :
  let cid := find_crypto_id (PyStr.lower c) in
  has_price (api cid) cid = true ->
  cid ∉ favorites_of uid st ->
  user_favorites st !! uid <> Some [] ->
  remove_favorite uid (c :: rest') (add_favorite api uid (c :: rest) st).2
  = (RemoveDone, st).
Proof.
  intros cid Hc Hnot Hne.
  rewrite (add_favorite_known api uid c rest st Hc). fold cid.
  assert (str_in cid (favorites_of uid st) = false) as ->.
  { apply not_true_is_false. by rewrite str_in_spec. }
  cbn [snd]. unfold remove_favorite. fold cid.
  cbn [user_favorites with_favorites]. rewrite lookup_insert_eq.
  assert (str_in cid (favorites_of uid st ++ [cid]) = true) as ->.
  { apply str_in_spec, elem_of_app. right. by apply list_elem_of_singleton. }
  cbn [negb]. rewrite (str_remove_snoc _ _ Hnot).
  set (m1 := <[uid := favorites_of uid st ++ [cid]]> (user_favorites st)).
  assert (match favorites_of uid st with
          | [] => delete uid m1
          | _ :: _ => <[uid := favorites_of uid st]> m1
          end = user_favorites st) as ->.
  { subst m1. unfold favorites_of.
    destruct (user_favorites st !! uid) as [[|x l]|] eqn:Eu; simpl.
    - done.
    - rewrite insert_insert_eq. by apply insert_id.
    - rewrite delete_insert_eq. by apply delete_id. }
  f_equal. by destruct st.
Qed.

Lemma fav_then_unfav_restores_witness :
  has_price (api_all_48000 "bitcoin") "bitcoin" = true
  /\ remove_favorite 7 ["Bitcoin"]%string
       (add_favorite api_all_48000 7 ["Bitcoin"]%string empty_store).2
     = (RemoveDone, empty_store).
Proof.
  split; [vm_compute; reflexivity|].
  apply (fav_then_unfav_restores api_all_48000 7 "Bitcoin" [] [] empty_store).
  - vm_compute; reflexivity.
  - unfold favorites_of. cbn. apply not_elem_of_nil.
  - cbn. by rewrite lookup_empty.
Defined.

(** ** Invariants of the store *)

Lemma add_to_portfolio_tidy (py_float : string -> option float)
  (api : string -> price_data) (u : Z) (args : list string) (st : store) :
  portfolio_tidy st -> portfolio_tidy (add_to_portfolio py_float api u args st).2.
Proof.
  intros Ht. unfold add_to_portfolio. repeat case_match; try done;
    cbn [snd]; intros u' h'; cbn [user_portfolio with_portfolio];
    rewrite insert_ensure_key, lookup_insert;
    (case_decide; [intros [= <-]; apply insert_non_empty | apply Ht]).
Qed.

Lemma remove_from_portfolio_tidy (u : Z) (args : list string) (st : store) :
  portfolio_tidy st -> portfolio_tidy (remove_from_portfolio u args st).2.
Proof.
  intros Ht. unfold remove_from_portfolio. repeat case_match; try done;
    cbn [snd]; intros u' h'; cbn [user_portfolio with_portfolio].
  - rewrite lookup_delete. case_decide; [done | apply Ht].
  - rewrite lookup_insert. case_decide; [|apply Ht].
    intros [= <-]. by eapply bool_decide_eq_false_1.
Qed.

Lemma add_favorite_tidy (api : string -> price_data) (u : Z) (args : list string)
  (st : store) :
  favorites_tidy st -> favorites_tidy (add_favorite api u args st).2.
Proof.
  intros Ht. unfold add_favorite.
  destruct args as [|arg0 args]; [done|].
  set (cid := find_crypto_id (PyStr.lower arg0)).
  destruct (has_price (api cid) cid); cbn [negb]; [|done].
  rewrite ensure_key_lookup, insert_ensure_key.
  destruct (str_in cid (default [] (user_favorites st !! u))) eqn:Hin; cbn [negb snd].
  - destruct (user_favorites st !! u) as [l|] eqn:Eu; [|done].
    by rewrite (ensure_key_present _ _ _ _ Eu), with_favorites_same.
  - intros u' l'. cbn [user_favorites with_favorites]. rewrite lookup_insert.
    case_decide; [|apply Ht]. intros [= <-].
    split; [by destruct (default [] (user_favorites st !! u))|].
    apply NoDup_app. split.
    + destruct (user_favorites st !! u) as [l|] eqn:Eu; simpl; [|constructor].
      by apply (Ht u l).
    + split; [|apply NoDup_singleton].
      intros x Hx ->%list_elem_of_singleton.
      apply str_in_spec in Hx. congruence.
Qed.

Lemma remove_favorite_tidy (u : Z) (args : list string) (st : store) :
  favorites_tidy st -> favorites_tidy (remove_favorite u args st).2.
Proof.
  intros Ht. unfold remove_favorite.
  destruct args as [|arg0 args]; [done|].
  set (cid := find_crypto_id (PyStr.lower arg0)).
  destruct (user_favorites st !! u) as [favs|] eqn:Eu; [|done].
  destruct (str_in cid favs); cbn [negb snd]; [|done].
  intros u' l'. cbn [user_favorites with_favorites].
  destruct (str_remove cid favs) as [|x l] eqn:Er.
  - rewrite lookup_delete. case_decide; [done | apply Ht].
  - rewrite lookup_insert. case_decide; [|apply Ht]. intros [= <-].
    split; [done|]. rewrite <- Er. apply str_remove_NoDup. by apply (Ht u favs).
Qed.

Lemma step_portfolio_tidy (st : store) (act : action) :
  portfolio_tidy st -> portfolio_tidy (step st act).
Proof.
  intros Ht. destruct act; simpl.
  - by apply add_to_portfolio_tidy.
  - by apply remove_from_portfolio_tidy.
  - unfold portfolio_tidy.
    by destruct (add_favorite_frame api user_id args st) as (_ & -> & _).
  - unfold portfolio_tidy.
    by destruct (remove_favorite_frame user_id args st) as (_ & -> & _).
  - unfold portfolio_tidy.
    by destruct (create_alert_frame py_float api user_id args st) as (-> & _).
  - unfold portfolio_tidy.
    by destruct (delete_alert_frame user_id args st) as (-> & _).
  - done.
  - unfold portfolio_tidy.
    by destruct (successful_payment_frame payment user_id st) as (_ & -> & _).
Qed.

Lemma step_favorites_tidy (st : store) (act : action) :
  favorites_tidy st -> favorites_tidy (step st act).
Proof.
  intros Ht. destruct act; simpl.
  - unfold favorites_tidy.
    by destruct (add_to_portfolio_frame py_float api user_id args st) as (_ & -> & _).
  - unfold favorites_tidy.
    by destruct (remove_from_portfolio_frame user_id args st) as (_ & -> & _).
  - by apply add_favorite_tidy.
  - by apply remove_favorite_tidy.
  - unfold favorites_tidy.
    by destruct (create_alert_frame py_float api user_id args st) as (_ & -> & _).
  - unfold favorites_tidy.
    by destruct (delete_alert_frame user_id args st) as (_ & -> & _).
  - done.
  - unfold favorites_tidy.
    by destruct (successful_payment_frame payment user_id st) as (_ & _ & ->).
Qed.

Lemma foldl_step_invariant (P : store -> Prop) :
  (forall st act, P st -> P (step st act)) ->
  forall acts st, P st -> P (foldl step st acts).
Proof.
  intros Hstep acts. induction acts as [|act acts IH]; intros st H; simpl; [done|].
  apply IH. by apply Hstep.
Qed.

(** X7. Whatever updates the bot has processed since it started, no user is
    mapped to an empty portfolio: [/remove] deletes the user's key with his
    last asset and every other update leaves at least one asset under a key
    it writes. *)
Theorem portfolio_never_empty (acts : list action) (u : Z) (h : gmap string float) :
  user_portfolio (run acts) !! u = Some h -> h <> ∅.
Proof.
  revert u h. change (portfolio_tidy (foldl step empty_store acts)).
  apply (foldl_step_invariant portfolio_tidy); [apply step_portfolio_tidy|].
  intros u h. cbn. by rewrite lookup_empty.
Qed.

Lemma portfolio_never_empty_witness :
  user_portfolio
    (run [DoAdd PyStr.decimal_float api_all_48000 7 ["btc"; "2"]%string;
          DoAdd PyStr.decimal_float api_all_48000 7 ["eth"; "3"]%string;
          DoRemove 7 ["btc"]%string]) !! 7
  = Some {[ "ethereum"%string := PyFloat.lit 3 ]}
  /\ ({[ "ethereum"%string := PyFloat.lit 3 ]} : gmap string float) <> ∅.
Proof.
  assert (user_portfolio
            (run [DoAdd PyStr.decimal_float api_all_48000 7 ["btc"; "2"]%string;
                  DoAdd PyStr.decimal_float api_all_48000 7 ["eth"; "3"]%string;
                  DoRemove 7 ["btc"]%string]) !! 7
          = Some {[ "ethereum"%string := PyFloat.lit 3 ]}) as E
    by (vm_compute; reflexivity).
  split; [exact E|]. exact (portfolio_never_empty _ 7 _ E).
Defined.

(** X8. Whatever updates the bot has processed since it started, every list
    of favorites in the store is non-empty and holds no asset twice. *)
Theorem favorites_never_repeat (acts : list action) (u : Z) (l : list string) :
  user_favorites (run acts) !! u = Some l -> l <> [] /\ NoDup l.
Proof.
  revert u l. change (favorites_tidy (foldl step empty_store acts)).
  apply (foldl_step_invariant favorites_tidy); [apply step_favorites_tidy|].
  intros u l. cbn. by rewrite lookup_empty.
Qed.

Lemma favorites_never_repeat_witness :
  user_favorites
    (run [DoFav api_all_48000 7 ["btc"]%string;
          DoFav api_all_48000 7 ["eth"]%string;
          DoFav api_all_48000 7 ["BTC"]%string]) !! 7
  = Some ["bitcoin"; "ethereum"]%string
  /\ NoDup ["bitcoin"; "ethereum"]%string.
Proof.
  assert (user_favorites
            (run [DoFav api_all_48000 7 ["btc"]%string;
                  DoFav api_all_48000 7 ["eth"]%string;
                  DoFav api_all_48000 7 ["BTC"]%string]) !! 7
          = Some ["bitcoin"; "ethereum"]%string) as E
    by (vm_compute; reflexivity).
  split; [exact E|]. exact (proj2 (favorites_never_repeat _ 7 _ E)).
Defined.

(** ** Deleting an alert by its number *)



Lemma with_alerts_same (st : store) : with_alerts st (user_alerts st) = st.
Proof. by destruct st. Qed.



Lemma with_alerts_same_after (st : store) (m : gmap Z (list alert)) :
  with_alerts (with_alerts st m) (user_alerts st) = st.
Proof. by destruct st. Qed.

(** What [create_alert] does once its three checks pass. *)
Lemma create_alert_known (py_float : string -> option float)
  (api : string -> price_data) (uid : Z) (c p d : string) (rest : list string)
  (st : store) (target cur : float) :
  let cid := find_crypto_id (PyStr.lower c) in
  py_float p = Some target ->
  PyStr.lower d = "above"%string \/ PyStr.lower d = "below"%string ->
  usd_price (api cid) cid = Some cur ->
  create_alert py_float api uid (c :: p :: d :: rest) st
  = (AlertCreated cur,
     with_alerts st
       (<[uid := alerts_of uid st ++ [Alert cid target (PyStr.lower d)]]>
          (user_alerts st))).
Proof.
  intros cid Hp Hd Hc. unfold create_alert. fold cid. rewrite Hp, Hc.
  assert (negb (String.eqb (PyStr.lower d) "above" || String.eqb (PyStr.lower d) "below")
          = false) as ->.
  { destruct Hd as [-> | ->]; reflexivity. }
  by rewrite ensure_key_lookup, insert_ensure_key.
Qed.

(** X10. Creating an alert and deleting the alert with the last number gives
    back the store as it was, and the deleted alert is the one just created:
    a new alert always takes the last number.  The user must not be mapped
    to an empty list beforehand (which only a run of the alert job leaves). *)
Theorem create_then_delete_restores (py_float : string -> option float)
  (api : string -> price_data) (uid : Z) (c p d num : string)
  (rest rest' : list string) (st : store) (target cur : float) :
  let cid := find_crypto_id (PyStr.lower c) in
  py_float p = Some target ->
  PyStr.lower d = "above"%string \/ PyStr.lower d = "below"%string ->
  usd_price (api cid) cid = Some cur ->
  PyStr.isdigit num = true ->
  int_of_digits num = Z.of_nat (length (alerts_of uid st)) + 1 ->
  user_alerts st !! uid <> Some [] ->
  delete_alert uid (num :: rest')
    (create_alert py_float api uid (c :: p :: d :: rest) st).2
  = (DeleteDone (Alert cid target (PyStr.lower d)), st).
Proof.
  intros cid Hp Hd Hc Hnum Hval Hne.
  rewrite (create_alert_known py_float api uid c p d rest st target cur Hp Hd Hc).
  fold cid. cbn [snd]. unfold delete_alert. rewrite Hnum, Hval. cbn [negb].
  cbn [user_alerts with_alerts]. rewrite lookup_insert_eq.
  set (L := alerts_of uid st). set (new := Alert cid target (PyStr.lower d)).
  replace (Z.of_nat (length L) + 1 - 1) with (Z.of_nat (length L)) by lia.
  rewrite Nat2Z.id.
  assert (((Z.of_nat (length L) <? 0)
           || (Z.of_nat (length (L ++ [new])) <=? Z.of_nat (length L))) = false) as ->.
  { rewrite length_app. simpl. apply orb_false_iff.
    split; [apply Z.ltb_ge | apply Z.leb_gt]; lia. }
  rewrite lookup_app_r by done. rewrite Nat.sub_diag. cbn [lookup list_lookup].
  assert (delete (length L) (L ++ [new]) = L) as ->.
  { rewrite delete_take_drop, take_app_length.
    rewrite drop_ge by (rewrite length_app; simpl; lia). apply app_nil_r. }
  f_equal.
  set (m1 := <[uid := L ++ [new]]> (user_alerts st)).
  assert (match L with
          | [] => delete uid m1
          | _ :: _ => <[uid := L]> m1
          end = user_alerts st) as ->.
  { subst m1 L. unfold alerts_of.
    destruct (user_alerts st !! uid) as [[|x l]|] eqn:Eu; simpl.
    - done.
    - rewrite insert_insert_eq. by apply insert_id.
    - rewrite delete_insert_eq. by apply delete_id. }
  apply with_alerts_same_after.
Qed.

Lemma create_then_delete_restores_witness :
  PyStr.decimal_float "50000" = Some (PyFloat.lit 50000)
  /\ delete_alert 7 ["1"]%string
       (create_alert PyStr.decimal_float api_all_48000 7
          ["BTC"; "50000"; "Above"]%string empty_store).2
     = (DeleteDone btc_above_50000, empty_store).
Proof.
  split; [vm_compute; reflexivity|].
  apply (create_then_delete_restores PyStr.decimal_float api_all_48000 7
           "BTC" "50000" "Above" "1" [] [] empty_store (PyFloat.lit 50000)
           (PyFloat.lit 48000)).
  - vm_compute; reflexivity.
  - left. vm_compute; reflexivity.
  - vm_compute; reflexivity.
  - reflexivity.
  - reflexivity.
  - cbn. by rewrite lookup_empty.
Defined.

(** ** What the alert job can do to the lists *)

Lemma check_entries_lookup (w : world) (entries : list (Z * list alert))
  (t : tick_state) (u : Z) :
  NoDup entries.*1 ->
  (forall l, (u, l) ∈ entries -> t_alerts t !! u = Some l) ->
  match t_alerts t !! u with
  | Some L =>
      exists L', t_alerts (check_entries w entries t) !! u = Some L' /\ sublist L' L
  | None => t_alerts (check_entries w entries t) !! u = None
  end.
Proof.
  intros Hnd Hent.
  destruct (decide (u ∈ entries.*1)) as [Hin|Hnot].
  - apply list_elem_of_fmap in Hin as ([u' l] & -> & Hin). simpl in *.
    rewrite (Hent l Hin).
    destruct (check_entries_user w u' l entries Hnd Hin t) as (L' & H1 & H2 & _).
    eauto.
  - destruct (check_entries_other w u entries Hnot t) as [-> _].
    destruct (t_alerts t !! u); eauto.
Qed.

Lemma check_alerts_lookup (w : world) (st : store) (u : Z) :
  match user_alerts st !! u with
  | Some L =>
      exists L', user_alerts (check_alerts w st).1 !! u = Some L' /\ sublist L' L
  | None => user_alerts (check_alerts w st).1 !! u = None
  end.
Proof.
  apply (check_entries_lookup w (map_to_list (user_alerts st))
           (TickState (user_alerts st) 0 0 []) u (NoDup_fst_map_to_list _)).
  intros l Hl. by apply elem_of_map_to_list.
Qed.

(** X11. A run of the alert job neither adds nor drops a user key of
    [user_alerts], and the list it leaves under a key is a sub-sequence of
    the list that was there: alerts can only go away, never appear, change
    or move; a user whose alerts have all fired keeps an empty list. *)
Theorem check_alerts_only_removes (w : world) (st : store) (u : Z) :
  (is_Some (user_alerts (check_alerts w st).1 !! u) <-> is_Some (user_alerts st !! u))
  /\ sublist (alerts_of u (check_alerts w st).1) (alerts_of u st)
  /\ (forall a, a ∈ alerts_of u (check_alerts w st).1 -> a ∈ alerts_of u st).
Proof.
  pose proof (check_alerts_lookup w st u) as H. unfold alerts_of.
  destruct (user_alerts st !! u) as [L|] eqn:E.
  - destruct H as (L' & -> & Hsub). simpl.
    split; [split; eauto|]. split; [done|].
    intros a Ha. by eapply elem_of_sublist.
  - rewrite H. simpl. split; [done|]. split; [done|]. done.
Qed.

(** ** Stored alerts are well formed *)

Lemma crypto_names_fixed (cid : string) :
  cid ∈ CRYPTO_IDS.*1 -> find_crypto_id cid = cid.
Proof.
  intros H. repeat (apply elem_of_cons in H as [->|H]; [reflexivity|]).
  by apply elem_of_nil in H.
Qed.

Lemma find_crypto_id_fixed (x : string) :
  find_crypto_id (find_crypto_id x) = find_crypto_id x.
Proof.
  assert (forall y, find_crypto_id y
                    = default (PyStr.lower y)
                        (find_in_table (PyStr.lower y) CRYPTO_IDS)) as Hdef by done.
  rewrite (Hdef x).
  destruct (find_in_table (PyStr.lower x) CRYPTO_IDS) as [cid|] eqn:E; simpl.
  - apply crypto_names_fixed. by eapply find_in_table_name.
  - by rewrite (Hdef (PyStr.lower x)), lower_idemp, E.
Qed.

Lemma create_alert_well_formed (py_float : string -> option float)
  (api : string -> price_data) (u : Z) (args : list string) (st : store) :
  alerts_well_formed st ->
  alerts_well_formed (create_alert py_float api u args st).2.
Proof.
  intros Hwf. unfold create_alert.
  destruct args as [|c [|p [|d rest]]]; try done.
  destruct (py_float p) as [target|]; [|done].
  destruct (negb _) eqn:Hd; [done|].
  destruct (usd_price _ _) as [cur|]; [|done].
  cbn [snd]. rewrite ensure_key_lookup, insert_ensure_key.
  intros u' l a. cbn [user_alerts with_alerts]. rewrite lookup_insert.
  case_decide; [|apply Hwf]. intros [= <-] [Ha|Ha]%elem_of_app.
  - destruct (user_alerts st !! u) as [l0|] eqn:Eu; simpl in Ha.
    + by apply (Hwf u l0).
    + by apply elem_of_nil in Ha.
  - apply list_elem_of_singleton in Ha as ->. split; simpl.
    + apply negb_false_iff, orb_true_iff in Hd.
      destruct Hd as [Hd|Hd]; apply String.eqb_eq in Hd; auto.
    + apply find_crypto_id_fixed.
Qed.

Lemma delete_alert_well_formed (u : Z) (args : list string) (st : store) :
  alerts_well_formed st -> alerts_well_formed (delete_alert u args st).2.
Proof.
  intros Hwf. unfold delete_alert.
  destruct args as [|arg0 args]; [done|].
  destruct (negb _); [done|].
  destruct (user_alerts st !! u) as [alerts|] eqn:Eu; [|done].
  destruct (_ || _); [done|].
  destruct (alerts !! _) as [removed|]; [|done]. cbn [snd].
  intros u' l a. cbn [user_alerts with_alerts].
  destruct (delete _ alerts) as [|x l'] eqn:Ed.
  - rewrite lookup_delete. case_decide; [done | apply Hwf].
  - rewrite lookup_insert. case_decide; [|apply Hwf]. intros [= <-] Ha.
    apply (Hwf u alerts a Eu). eapply elem_of_sublist; [exact Ha|].
    rewrite <- Ed. apply sublist_delete.
Qed.

Lemma check_alerts_well_formed (w : world) (st : store) :
  alerts_well_formed st -> alerts_well_formed (check_alerts w st).1.
Proof.
  intros Hwf u l a Hl Ha. pose proof (check_alerts_lookup w st u) as H.
  destruct (user_alerts st !! u) as [L|] eqn:E.
  - destruct H as (L' & HL' & Hsub). rewrite HL' in Hl. injection Hl as ->.
    apply (Hwf u L a E). by eapply elem_of_sublist.
  - congruence.
Qed.

Lemma step_alerts_well_formed (st : store) (act : action) :
  alerts_well_formed st -> alerts_well_formed (step st act).
Proof.
  intros Hwf. destruct act; simpl.
  - unfold alerts_well_formed.
    by destruct (add_to_portfolio_frame py_float api user_id args st) as (-> & _).
  - unfold alerts_well_formed.
    by destruct (remove_from_portfolio_frame user_id args st) as (-> & _).
  - unfold alerts_well_formed.
    by destruct (add_favorite_frame api user_id args st) as (-> & _).
  - unfold alerts_well_formed.
    by destruct (remove_favorite_frame user_id args st) as (-> & _).
  - by apply create_alert_well_formed.
  - by apply delete_alert_well_formed.
  - by apply check_alerts_well_formed.
  - unfold alerts_well_formed.
    by destruct (successful_payment_frame payment user_id st) as (-> & _).
Qed.

(** X12. Whatever updates the bot has processed since it started, every
    stored alert has the direction ['above'] or ['below'] and an asset id in
    the form [find_crypto_id] returns (lower case, a code replaced by its
    name); so the evaluator never meets an alert that neither of its two
    branches can trigger because of its direction. *)
Theorem stored_alerts_well_formed (acts : list action) (u : Z) (l : list alert)
  (a : alert) :
  user_alerts (run acts) !! u = Some l ->
  a ∈ l ->
  (direction a = "above"%string \/ direction a = "below"%string)
  /\ find_crypto_id (crypto_id a) = crypto_id a.
Proof.
  revert u l a. change (alerts_well_formed (foldl step empty_store acts)).
  apply (foldl_step_invariant alerts_well_formed); [apply step_alerts_well_formed|].
  intros u l a. cbn. by rewrite lookup_empty.
Qed.

Lemma stored_alerts_well_formed_witness :
  user_alerts
    (run [DoAlert PyStr.decimal_float api_all_48000 7 ["BTC"; "50000"; "ABOVE"]%string;
          DoAlert PyStr.decimal_float api_all_48000 7 ["eth"; "2000"; "sideways"]%string])
    !! 7
  = Some [btc_above_50000]
  /\ find_crypto_id (crypto_id btc_above_50000) = crypto_id btc_above_50000.
Proof.
  assert (user_alerts
            (run [DoAlert PyStr.decimal_float api_all_48000 7
                    ["BTC"; "50000"; "ABOVE"]%string;
                  DoAlert PyStr.decimal_float api_all_48000 7
                    ["eth"; "2000"; "sideways"]%string]) !! 7
          = Some [btc_above_50000]) as E by (vm_compute; reflexivity).
  split; [exact E|].
  exact (proj2 (stored_alerts_well_formed _ 7 _ btc_above_50000 E
                  ltac:(apply list_elem_of_singleton; reflexivity))).
Defined.

(** ** The alert job when no price is known *)

Lemma notified_app (l1 l2 : list event) :
  notified (l1 ++ l2) = notified l1 ++ notified l2.
Proof. unfold notified. apply flat_map_app. Qed.

Lemma check_user_alerts_no_price (w : world) (uid : Z) (R : list alert) :
  (forall n cid, has_price (get_crypto_price w n cid) cid = false) ->
  forall s,
    live (check_user_alerts w uid R s) = live s
    /\ notified (log (check_user_alerts w uid R s)) = notified (log s).
Proof.
  intros Hno. induction R as [|h R IH]; intros s; simpl; [done|].
  destruct (IH (check_alert w uid h s)) as [-> ->].
  unfold check_alert, usd_price. rewrite Hno. simpl.
  rewrite notified_app. simpl. by rewrite app_nil_r.
Qed.

Lemma check_entries_no_price (w : world) (entries : list (Z * list alert)) :
  (forall n cid, has_price (get_crypto_price w n cid) cid = false) ->
  forall t,
    (forall u l, (u, l) ∈ entries -> t_alerts t !! u = Some l) ->
    t_alerts (check_entries w entries t) = t_alerts t
    /\ notified (t_log (check_entries w entries t)) = notified (t_log t).
Proof.
  intros Hno. induction entries as [|[u l] entries IH]; intros t Hent; [done|].
  rewrite check_entries_cons.
  destruct (check_user_alerts_no_price w u l Hno
              (LoopState l (t_queries t) (t_sends t) (t_log t))) as [Hl Hn].
  assert (t_alerts (check_user w t (u, l)) = t_alerts t) as Ht.
  { rewrite check_user_lookup, Hl. simpl. apply insert_id, Hent, list_elem_of_here. }
  destruct (IH (check_user w t (u, l))) as [-> ->].
  - intros u' l' Hin. rewrite Ht. by apply Hent, list_elem_of_further.
  - by rewrite Ht, check_user_log, Hn.
Qed.

(** X13. When the price API gives no price for any asset it is asked about
    (it fails, or answers without the asset), a run of the alert job changes
    nothing in the store and attempts no notification. *)
Theorem check_alerts_without_prices (w : world) (st : store) :
  (forall n cid, has_price (get_crypto_price w n cid) cid = false) ->
  (check_alerts w st).1 = st /\ notified (check_alerts w st).2 = [].
Proof.
  intros Hno. unfold check_alerts. cbn [fst snd].
  destruct (check_entries_no_price w (map_to_list (user_alerts st)) Hno
              (TickState (user_alerts st) 0 0 [])) as [-> ->].
  - intros u l Hin. by apply elem_of_map_to_list.
  - split; [apply with_alerts_same | done].
Qed.

Lemma check_alerts_without_prices_witness :
  (forall n cid, has_price (get_crypto_price (World (fun _ _ => None) (fun _ _ => true)) n cid) cid = false)
  /\ (check_alerts (World (fun _ _ => None) (fun _ _ => true)) store_two_alerts).1
     = store_two_alerts.
Proof.
  split; [reflexivity|].
  apply (check_alerts_without_prices (World (fun _ _ => None) (fun _ _ => true))
           store_two_alerts).
  reflexivity.
Defined.

(** ** The alert job with steady prices and reliable sends *)

Lemma float_eq_compare (x y : float) :
  PyFloat.eq x y = true -> forall z, SFcompare z x = SFcompare z y.
Proof.
  unfold PyFloat.eq, SFeqb. intros H z.
  destruct (SFcompare x y) as [[| |]|] eqn:Hxy; try discriminate.
  destruct x as [sx|sx| |sx mx ex], y as [sy|sy| |sy my ey];
    try (simpl in Hxy; discriminate);
    try (simpl in Hxy; destruct sx, sy; discriminate).
  - by destruct z.
  - destruct sx, sy; try (simpl in Hxy; discriminate); done.
  - by apply SFcompare_finite_eq in Hxy as (-> & -> & ->).
Qed.

Lemma fires_alert_eqb (api : string -> price_data) (e h : alert) :
  alert_eqb e h = true -> fires api e = fires api h.
Proof.
  unfold alert_eqb. intros H.
  apply andb_true_iff in H as [H Hd]. apply andb_true_iff in H as [Hc Hp].
  apply String.eqb_eq in Hc, Hd. unfold fires. rewrite Hc, Hd.
  destruct (usd_price _ _) as [cur|]; [|done].
  unfold triggered, PyFloat.ge, PyFloat.le, SFleb.
  by rewrite (float_eq_compare _ _ Hp cur).
Qed.

Lemma fires_alert_eqb_refl (api : string -> price_data) (h : alert) :
  fires api h = true -> alert_eqb h h = true.
Proof.
  unfold fires. destruct (usd_price _ _) as [cur|]; [|done].
  apply triggered_alert_eqb_refl.
Qed.

Lemma list_remove_first_self (h : alert) (l1 l2 : list alert) :
  (forall e, e ∈ l1 -> alert_eqb e h = false) ->
  alert_eqb h h = true ->
  list_remove h (l1 ++ h :: l2) = l1 ++ l2.
Proof.
  intros Hl1 Hh. induction l1 as [|e l1 IH]; simpl.
  - by rewrite Hh.
  - rewrite (Hl1 e) by apply list_elem_of_here. f_equal. apply IH.
    intros e' He'. by apply Hl1, list_elem_of_further.
Qed.

Section SteadyWorld.

Variable w : world.
Variable api : string -> price_data.
Hypothesis steady_prices : forall n cid, get_crypto_price w n cid = api cid.
Hypothesis reliable_sends : forall n u, send_message w n u = true.

Lemma check_user_alerts_steady (uid : Z) (R : list alert) :
  forall P s,
    live s = List.filter (fun a => negb (fires api a)) P ++ R ->
    live (check_user_alerts w uid R s)
    = List.filter (fun a => negb (fires api a)) (P ++ R)
    /\ notified (log (check_user_alerts w uid R s))
       = notified (log s) ++ map (pair uid) (List.filter (fires api) R).
Proof.
  induction R as [|h R IH]; intros P s Hlive; simpl.
  - by rewrite !app_nil_r in *.
  - assert (live (check_alert w uid h s)
            = List.filter (fun a => negb (fires api a)) (P ++ [h]) ++ R
            /\ notified (log (check_alert w uid h s))
               = notified (log s) ++ (if fires api h then [(uid, h)] else [])) as [H1 H2].
    { unfold check_alert. rewrite steady_prices.
      rewrite List.filter_app. cbn [List.filter].
      destruct (usd_price (api (crypto_id h)) (crypto_id h)) as [cur|] eqn:Hp.
      - destruct (triggered (direction h) cur (target_price h)) eqn:Ht.
        + assert (fires api h = true) as Hf by (unfold fires; by rewrite Hp).
          rewrite reliable_sends, Hf. cbn [live log negb]. rewrite app_nil_r.
          split.
          * rewrite Hlive. apply list_remove_first_self.
            -- intros e He. apply list_elem_of_In, filter_In in He as [_ He].
               destruct (alert_eqb e h) eqn:Heq; [|done].
               apply (fires_alert_eqb api) in Heq.
               rewrite Heq, Hf in He. discriminate.
            -- by eapply triggered_alert_eqb_refl.
          * rewrite !notified_app. simpl. by rewrite app_nil_r.
        + assert (fires api h = false) as Hf by (unfold fires; by rewrite Hp).
          rewrite Hf. cbn [live log negb]. split.
          * rewrite Hlive. by rewrite <- app_assoc.
          * rewrite notified_app. simpl. by rewrite !app_nil_r.
      - assert (fires api h = false) as Hf by (unfold fires; by rewrite Hp).
        rewrite Hf. cbn [live log negb]. split.
        + rewrite Hlive. by rewrite <- app_assoc.
        + rewrite notified_app. simpl. by rewrite !app_nil_r. }
    destruct (IH (P ++ [h]) (check_alert w uid h s) H1) as [-> ->].
    rewrite <- app_assoc. simpl. split; [done|].
    rewrite H2, <- app_assoc. by destruct (fires api h).
Qed.

Lemma check_entries_steady (entries : list (Z * list alert)) :
  forall t,
    t_alerts (check_entries w entries t)
    = foldl (fun m entry =>
               <[entry.1 := List.filter (fun a => negb (fires api a)) entry.2]> m)
        (t_alerts t) entries
    /\ notified (t_log (check_entries w entries t))
       = notified (t_log t)
         ++ flat_map (fun entry => map (pair entry.1) (List.filter (fires api) entry.2))
              entries.
Proof.
  induction entries as [|[u l] entries IH]; intros t;
    [simpl; by rewrite app_nil_r|].
  rewrite check_entries_cons.
  destruct (IH (check_user w t (u, l))) as [-> ->].
  rewrite check_user_lookup, check_user_log.
  destruct (check_user_alerts_steady u l []
              (LoopState l (t_queries t) (t_sends t) (t_log t)) eq_refl) as [-> ->].
  simpl. by rewrite <- app_assoc.
Qed.

End SteadyWorld.

Lemma foldl_insert_lookup {A : Type} (f : list A -> list A)
  (entries : list (Z * list A)) :
  NoDup entries.*1 ->
  forall (m0 : gmap Z (list A)) u,
    foldl (fun m entry => <[entry.1 := f entry.2]> m) m0 entries !! u
    = match (list_to_map entries : gmap Z (list A)) !! u with
      | Some l => Some (f l)
      | None => m0 !! u
      end.
Proof.
  induction entries as [|[u' l] entries IH]; intros Hnd m0 u; simpl.
  - by rewrite lookup_empty.
  - rewrite fmap_cons in Hnd. apply NoDup_cons in Hnd as [Hfresh Hnd].
    rewrite (IH Hnd). simpl in *.
    destruct (decide (u' = u)) as [->|Hne].
    + rewrite (not_elem_of_list_to_map_1 _ _ Hfresh).
      by rewrite !lookup_insert_eq.
    + by rewrite !lookup_insert_ne.
Qed.

Lemma foldl_insert_fmap {A : Type} (f : list A -> list A) (m : gmap Z (list A)) :
  foldl (fun m entry => <[entry.1 := f entry.2]> m) m (map_to_list m) = f <$> m.
Proof.
  apply map_eq. intros u.
  rewrite (foldl_insert_lookup f _ (NoDup_fst_map_to_list m)).
  rewrite list_to_map_to_list, lookup_fmap. by destruct (m !! u).
Qed.

Lemma flat_map_all_nil {A B : Type} (f : A -> list B) (l : list A) :
  (forall x, x ∈ l -> f x = []) -> flat_map f l = [].
Proof.
  induction l as [|x l IH]; intros H; simpl; [done|].
  rewrite (H x) by apply list_elem_of_here. apply IH.
  intros y Hy. by apply H, list_elem_of_further.
Qed.

Lemma filter_not_fires_idemp (api : string -> price_data) (l : list alert) :
  List.filter (fun a => negb (fires api a)) (List.filter (fun a => negb (fires api a)) l)
  = List.filter (fun a => negb (fires api a)) l
  /\ List.filter (fires api) (List.filter (fun a => negb (fires api a)) l) = [].
Proof.
  induction l as [|a l [IH1 IH2]]; simpl; [done|].
  destruct (fires api a) eqn:E; simpl; [done|]. rewrite E. simpl.
  by rewrite IH1, IH2.
Qed.

(** X14. With a price API that gives the same answer for an asset throughout
    and sends that always succeed, a run of the alert job leaves under each
    user exactly his alerts that are not triggered at these prices, in their
    order, and notifies each triggered alert once, user by user in the order
    of the lists; a second run at the same prices then changes nothing and
    notifies nobody. *)
Theorem check_alerts_steady (w : world) (api : string -> price_data) (st : store) :
  (forall n cid, get_crypto_price w n cid = api cid) ->
  (forall n u, send_message w n u = true) ->
  let st' := (check_alerts w st).1 in
  user_alerts st' = List.filter (fun a => negb (fires api a)) <$> user_alerts st
  /\ notified (check_alerts w st).2
     = flat_map (fun entry => map (pair entry.1) (List.filter (fires api) entry.2))
         (map_to_list (user_alerts st))
  /\ (check_alerts w st').1 = st'
  /\ notified (check_alerts w st').2 = [].
Proof.
  intros Hq Hs st'.
  assert (forall s0,
            user_alerts (check_alerts w s0).1
            = List.filter (fun a => negb (fires api a)) <$> user_alerts s0
            /\ notified (check_alerts w s0).2
               = flat_map (fun entry => map (pair entry.1)
                                          (List.filter (fires api) entry.2))
                   (map_to_list (user_alerts s0))) as Hrun.
  { intros s0. unfold check_alerts. cbn [fst snd user_alerts with_alerts].
    destruct (check_entries_steady w api Hq Hs (map_to_list (user_alerts s0))
                (TickState (user_alerts s0) 0 0 [])) as [-> ->].
    cbn [t_alerts t_log]. split; [apply foldl_insert_fmap | done]. }
  destruct (Hrun st) as [H1 H2]. destruct (Hrun st') as [H3 H4].
  split; [exact H1|]. split; [exact H2|].
  assert (user_alerts (check_alerts w st').1 = user_alerts st') as Hsame.
  { rewrite H3. subst st'. rewrite H1. apply map_eq. intros u.
    rewrite !lookup_fmap. destruct (user_alerts st !! u) as [l|]; simpl; [|done].
    f_equal. apply filter_not_fires_idemp. }
  split.
  - unfold check_alerts in Hsame |- *. cbn [fst user_alerts with_alerts] in Hsame |- *.
    rewrite Hsame. apply with_alerts_same.
  - rewrite H4. subst st'. rewrite H1.
    apply flat_map_all_nil. intros [u l'] Hin. simpl.
    apply elem_of_map_to_list in Hin. rewrite lookup_fmap in Hin.
    destruct (user_alerts st !! u) as [l|]; simpl in Hin; [|done].
    injection Hin as <-.
    by rewrite (proj2 (filter_not_fires_idemp api l)).
Qed.

Lemma check_alerts_steady_witness :
  (forall n u, send_message world_steady n u = true)
  /\ user_alerts (check_alerts world_steady store_three_alerts).1 !! 7
     = Some [Alert "bitcoin" (PyFloat.lit 60000) "above"]
  /\ notified (check_alerts world_steady store_three_alerts).2
     = [(7, btc_above_50000); (7, eth_below_2000)].
Proof.
  split; [reflexivity|].
  destruct (check_alerts_steady world_steady (get_crypto_price world_steady 0)
              store_three_alerts ltac:(reflexivity) ltac:(reflexivity))
    as (H1 & H2 & _).
  split.
  - rewrite H1. vm_compute. reflexivity.
  - rewrite H2. vm_compute. reflexivity.
Defined.

(** ** From the invoice to the pre-checkout *)

Lemma prefix_append (p s : string) : String.prefix p (p ++ s) = true.
Proof.
  induction p as [|a p IH]; simpl.
  - by destruct s.
  - destruct (ascii_dec a a); [exact IH | done].
Qed.

Lemma invoice_payload_prefix (uid now : Z) :
  PyStr.startswith (invoice_payload uid now) "deposit_" = true.
Proof. apply prefix_append. Qed.

(** X15. Every invoice that [deposit] sends carries the payload
    [deposit_<user id>_<time>], and [pre_checkout_handler] never turns such
    a payload down as a wrong kind of payment: it confirms it whenever its
    answer goes through. *)
Theorem deposit_payload_passes_pre_checkout (py_float : string -> option float)
  (token : option string) (now : Z) (ok : bool) (uid : Z) (args : list string)
  (payload : string) (tiyin : Z) :
  deposit py_float token now ok uid args = DepositInvoice payload tiyin ->
  payload = invoice_payload uid now
  /\ pre_checkout_handler payload true = PreCheckoutOk
  /\ pre_checkout_handler payload false = PreCheckoutError.
Proof.
  intros H.
  assert (payload = invoice_payload uid now) as ->.
  { unfold deposit, issue_invoice in H. repeat case_match; congruence. }
  unfold pre_checkout_handler. by rewrite invoice_payload_prefix.
Qed.

Lemma deposit_payload_passes_pre_checkout_witness :
  deposit PyStr.decimal_float (Some "provider-token"%string) 1700000000 true 7
    ["2500.50"]%string
  = DepositInvoice "deposit_7_1700000000" 250050
  /\ pre_checkout_handler "deposit_7_1700000000" true = PreCheckoutOk.
Proof.
  assert (deposit PyStr.decimal_float (Some "provider-token"%string) 1700000000 true 7
            ["2500.50"]%string
          = DepositInvoice "deposit_7_1700000000" 250050) as E
    by (vm_compute; reflexivity).
  split; [exact E|].
  exact (proj1 (proj2 (deposit_payload_passes_pre_checkout _ _ _ _ _ _ _ _ E))).
Defined.

(** ** Arguments of the display commands *)



(** ** Commands that answer with an error *)

